(** * sitecheck: a shallow embedding of [sites.py]

    [sites.py] probes a fixed list of web sites (HTTP HEAD, then a GET for
    pages expected to answer 200), checks the remaining life time of the TLS
    certificates of a fixed list of hosts, and in CI mode stores the outcome
    in S3 and notifies by SMS and Slack.

    The program is effectful: it talks to the network, reads the clock and
    the process environment, prints, and raises exceptions.  The embedding
    keeps all of that explicit.  A computation is a function from the trace
    of external calls made so far to the extended trace and either a value or
    a raised Python exception.  What the outside world answers is a [world]:
    one oracle per external call, each of which may depend on the whole
    history. *)

From Stdlib Require Import ZArith Lia String Ascii List.
From stdpp Require Import base strings gmap pretty list.

Open Scope string_scope.
Open Scope Z_scope.
Open Scope list_scope.

(** ** Python values and exceptions *)

(** The exceptions the program can meet.  [RequestException] stands for
    [requests.exceptions.RequestException] and all its subclasses, the one
    class [check_sites] catches; the payload is [str(e)].  [OSError] covers
    [socket.timeout], [ConnectionRefusedError], [socket.gaierror] and
    [ssl.SSLError], which are all subclasses of it. *)
Inductive exn : Type :=
| RequestException (msg : string)
| KeyError (key : string)
| ValueError (msg : string)
| OSError (msg : string)
| UnicodeDecodeError (msg : string)
| ReError (msg : string)
| TwilioException (msg : string)
| Exception (msg : string).

Inductive result (A : Type) : Type :=
| Ok (a : A)
| Raise (e : exn).
Arguments Ok {A} a.
Arguments Raise {A} e.

(** An HTTP response of [requests]: [r.status_code], [r.headers] and
    [r.content] (bytes, kept as a byte string).  [requests] stores headers in
    a [CaseInsensitiveDict]; the map is keyed by the lower-cased name. *)
Record response : Type := {
  status_code : Z;
  headers : gmap string string;
  content : string
}.

(** One entry of the [servers] table: a dict with the keys [url] and [code],
    and [redirect] or [contents] where the entry gives them. *)
Record server : Type := {
  url : string;
  code : Z;
  redirect : option string;
  contents : option string
}.

(** The dict [data] that [__main__] stores in S3. *)
Record run_data : Type := {
  lastRun : Z;
  version : Z;
  results : Z;
  errors : list string
}.

(** ** [datetime.timedelta] *)

(** A [timedelta] is kept normalised by Python: [0 <= seconds < 86400] and
    [0 <= microseconds < 1000000], [days] carries the sign. *)
Record timedelta : Type := {
  days : Z;
  seconds : Z;
  microseconds : Z
}.

Definition us_per_second : Z := 1000000.
Definition us_per_day : Z := 86400 * us_per_second.

(** The normalisation every [timedelta] constructor performs. *)
Definition timedelta_of_us (n : Z) : timedelta :=
  {| days := n / us_per_day;
     seconds := (n mod us_per_day) / us_per_second;
     microseconds := n mod us_per_second |}.

Definition total_us (d : timedelta) : Z :=
  days d * us_per_day + seconds d * us_per_second + microseconds d.

(** [datetime.timedelta(days=d)] *)
Definition timedelta_days (d : Z) : timedelta := timedelta_of_us (d * us_per_day).

(** [a < b] on timedeltas compares [(days, seconds, microseconds)]
    lexicographically. *)
Definition timedelta_lt (a b : timedelta) : bool :=
  (days a <? days b)
  || ((days a =? days b)
      && ((seconds a <? seconds b)
          || ((seconds a =? seconds b) && (microseconds a <? microseconds b)))).

(** A naive [datetime] is a point on the time line, in microseconds;
    [a - b] on two of them is a [timedelta]. *)
Definition datetime_sub (a b : Z) : timedelta := timedelta_of_us (a - b).

(** ** External calls, traces and the world *)

Inductive event : Type :=
| Print (line : string)
| HttpHead (u : string)
| HttpGet (u : string)
| HttpPost (u : string) (text : string)
| SslConnect (hostname : string) (port : Z)
| UtcNow
| TimeTime
| S3Delete (key : string)
| S3Get (key : string)
| S3Put (key : string) (data : run_data)
| TwilioCreate (body from_ to : string).

Abbreviation trace := (list event).

(** What the environment answers.  The first group are the calls that reach
    outside the process; each receives the trace before the call.  The
    second group are pure library functions the program relies on; those
    that can raise answer a [result].

    [strftime_local n fmt] stands for
    [datetime.datetime.fromtimestamp(n).strftime(fmt)] (line 176):
    [fromtimestamp] raises [ValueError], [OverflowError] or [OSError] for a
    timestamp outside the range of the platform.

    [ssl_connect] stands for lines 30-38 of [ssl_expiry_datetime]: building
    the default context, wrapping the socket, the 3 second timeout,
    [connect((hostname, 443))] and [getpeercert()]; it answers the
    certificate dict.

    Modelled from the spec: the S3 store ([s3data.S3Data]) is not part of the
    sources; [get(key)] answers the stored record or nothing, [put] and
    [delete] answer nothing. *)
Record world : Type := {
  requests_head : trace -> string -> result response;
  requests_get : trace -> string -> result response;
  requests_post : trace -> string -> string -> result response;
  ssl_connect : trace -> string -> Z -> result (gmap string string);
  utcnow : trace -> Z;
  time_time : trace -> Z;
  s3_delete : trace -> string -> result unit;
  s3_get : trace -> string -> result (option run_data);
  s3_put : trace -> string -> run_data -> result unit;
  twilio_create : trace -> string -> string -> string -> string -> string -> result string;
  environ : gmap string string;
  decode_utf8 : string -> result string;
  re_findall : string -> string -> result (list string);
  strptime : string -> string -> result Z;
  strftime_local : Z -> string -> result string;
  str_bytes : string -> string
}.

(** ** The monad of computations *)

Definition M (A : Type) : Type := trace -> trace * result A.

#[global] Instance M_ret : MRet M := fun A a t => (t, Ok a).

#[global] Instance M_bind : MBind M := fun A B k m t =>
  match m t with
  | (t', Ok a) => k a t'
  | (t', Raise e) => (t', Raise e)
  end.

Definition raise {A : Type} (e : exn) : M A := fun t => (t, Raise e).

(** An external call: the oracle sees the trace so far, the call is logged. *)
Definition call {A : Type} (ev : event) (oracle : trace -> result A) : M A :=
  fun t => (t ++ [ev], oracle t).

(** A pure library function that may raise. *)
Definition lift {A : Type} (r : result A) : M A := fun t => (t, r).

Definition print (line : string) : M unit := call (Print line) (fun _ => Ok tt).

Definition when (b : bool) (m : M unit) : M unit := if b then m else mret tt.

(** [try: m  except requests.exceptions.RequestException as e: h e] *)
Definition try_except_RequestException {A : Type} (m : M A) (h : string -> M A) : M A :=
  fun t =>
    match m t with
    | (t', Raise (RequestException msg)) => h msg t'
    | other => other
    end.

(** [d[key]] on a dict. *)
Definition getitem (d : gmap string string) (key : string) : M string :=
  match d !! key with
  | Some v => mret v
  | None => raise (KeyError key)
  end.

(** [s[key]] on an entry of [servers], for the optional keys. *)
Definition server_getitem (field : option string) (key : string) : M string :=
  match field with
  | Some v => mret v
  | None => raise (KeyError key)
  end.

Definition ascii_lower (c : ascii) : ascii :=
  let n := N_of_ascii c in
  if ((65 <=? n) && (n <=? 90))%N then ascii_of_N (n + 32) else c.

Fixpoint lower (s : string) : string :=
  match s with
  | EmptyString => EmptyString
  | String c rest => String (ascii_lower c) (lower rest)
  end.

(** [r.headers[key]]: [CaseInsensitiveDict.__getitem__] looks the lower-cased
    key up, and the [KeyError] it raises names the lower-cased key. *)
Definition headers_getitem (h : gmap string string) (key : string) : M string :=
  getitem h (lower key).

Definition len {A : Type} (l : list A) : Z := Z.of_nat (length l).

(** ** [sites.py] *)

Section Sitecheck.

Variable w : world.

(** [ssl_expiry_datetime(hostname)] *)
Definition ssl_expiry_datetime (hostname : string) : M Z :=
  let ssl_date_fmt := "%b %d %H:%M:%S %Y %Z" in
  ssl_info ← call (SslConnect hostname 443) (fun t => ssl_connect w t hostname 443);
  notAfter ← getitem ssl_info "notAfter";
  lift (strptime w notAfter ssl_date_fmt).

(** [ssl_valid_time_remaining(hostname)] *)
Definition ssl_valid_time_remaining (hostname : string) : M timedelta :=
  expires ← ssl_expiry_datetime hostname;
  now ← call UtcNow (fun t => Ok (utcnow w t));
  mret (datetime_sub expires now).

(** How one pass through the body of [for s in servers] ends: it falls
    through to the next entry, or it leaves the loop with [break]. *)
Inductive flow : Type := Next | Break.

(** Lines 84-100: what the loop body does with the answer [r] to the HEAD
    request.  [errors] is the list the loop appends to. *)
Definition check_response (s : server) (r : response) (errors : list string)
  : M (flow * list string) :=
  if negb (status_code r =? code s) then
    mret (Next, errors ++ ["Fail: " +:+ url s +:+ " expected response code "
                             +:+ pretty (code s) +:+ " received "
                             +:+ pretty (status_code r)])
  else if (status_code r =? 301) || (status_code r =? 302) then
    location ← headers_getitem (headers r) "Location";
    expected ← server_getitem (redirect s) "redirect";
    if negb (String.eqb location expected) then
      mret (Next, errors ++ ["Fail: " +:+ url s +:+ " expected redirect "
                               +:+ expected +:+ " received " +:+ location])
    else mret (Next, errors)
  else if status_code r =? 200 then
    r2 ← call (HttpGet (url s)) (fun t => requests_get w t (url s));
    if negb (status_code r2 =? 200) then
      raise (Exception ("unexpected http response code " +:+ pretty (status_code r)
                          +:+ " from get " +:+ url s))
    else
      pattern ← server_getitem (contents s) "contents";
      text ← lift (decode_utf8 w (content r2));
      matches ← lift (re_findall w pattern text);
      match matches with
      | [] => mret (Next, errors ++ ["Fail: " +:+ url s +:+ " expected contents "
                                       +:+ pattern])
      | _ :: _ => mret (Next, errors)
      end
  else mret (Next, errors).

(** The body of [for s in servers:] (lines 75-100): the progress line, the
    HEAD request inside [try], the [except] branch with its [break], and the
    checks on the answer. *)
Definition server_body (verbose : bool) (s : server) (errors : list string)
  : M (flow * list string) :=
  when verbose (print ("checking " +:+ url s));;
  hd ← try_except_RequestException
         (r ← call (HttpHead (url s)) (fun t => requests_head w t (url s)); mret (inr r))
         (fun e => mret (inl e));
  match hd with
  | inl e =>
      mret (Break, errors ++ ["Fail: " +:+ url s +:+ " exception " +:+ e])
  | inr r => check_response s r errors
  end.

(** [for s in servers: ...], with its [break]. *)
Fixpoint for_servers (verbose : bool) (servers : list server) (errors : list string)
  : M (list string) :=
  match servers with
  | [] => mret errors
  | s :: rest =>
      '(fl, errors') ← server_body verbose s errors;
      match fl with
      | Next => for_servers verbose rest errors'
      | Break => mret errors'
      end
  end.

(** The body of [for s in ssl_hosts:] (lines 108-114). *)
Definition ssl_host_body (verbose : bool) (s : string) (errors : list string)
  : M (list string) :=
  when verbose (print ("checking SSL " +:+ s));;
  remaining ← ssl_valid_time_remaining s;
  if timedelta_lt remaining (timedelta_days 0) then
    mret (errors ++ ["Fail: SSL cert for " +:+ s +:+ " already expired!"])
  else if timedelta_lt remaining (timedelta_days 3) then
    mret (errors ++ ["Fail: SSL cert for " +:+ s +:+ " expiring in "
                       +:+ pretty (days remaining) +:+ " days"])
  else mret errors.

Fixpoint for_ssl_hosts (verbose : bool) (ssl_hosts : list string) (errors : list string)
  : M (list string) :=
  match ssl_hosts with
  | [] => mret errors
  | s :: rest =>
      errors' ← ssl_host_body verbose s errors;
      for_ssl_hosts verbose rest errors'
  end.

Definition newline : string := String "010" EmptyString.
Definition esc : string := String "027" EmptyString.

(** [check_sites] with the two tables as arguments. *)
Definition check_sites_on (servers : list server) (ssl_hosts : list string)
    (verbose : bool) : M (list string) :=
  errors ← for_servers verbose servers [];
  errors ← for_ssl_hosts verbose ssl_hosts errors;
  when verbose
    (print ("Done. " +:+ pretty (len servers) +:+ " server and "
              +:+ pretty (len ssl_hosts) +:+ " SSL certs checks; found "
              +:+ pretty (len errors) +:+ " error(s)");;
     print (esc +:+ "[91m" +:+ String.concat newline errors +:+ esc +:+ "[0m"));;
  mret errors.

End Sitecheck.

(** The table [servers] of [check_sites]. *)
Definition redirect_entry (u : string) (c : Z) (r : string) : server :=
  {| url := u; code := c; redirect := Some r; contents := None |}.

Definition contents_entry (u : string) (c : Z) (p : string) : server :=
  {| url := u; code := c; redirect := None; contents := Some p |}.

Definition servers : list server :=
  [ redirect_entry "http://www.readthedocs.org/" 302 "http://readthedocs.org/";
    redirect_entry "http://readthedocs.org/" 302 "https://readthedocs.org/";
    contents_entry "https://readthedocs.org/" 200 "Technical documentation lives here";
    redirect_entry "http://www.python.org/" 301 "https://www.python.org/";
    redirect_entry "http://python.org/" 301 "https://python.org/";
    contents_entry "https://www.python.org/" 200
      "official home of the Python Programming Language";
    redirect_entry "http://thunderbird.net/" 301 "https://thunderbird.net/";
    redirect_entry "http://www.thunderbird.net/" 301 "https://www.thunderbird.net/";
    contents_entry "https://www.thunderbird.net/en-US/" 200
      "Software made to make email easier" ].

Definition ssl_hosts : list string :=
  [ "readthedocs.org"; "www.python.org"; "www.thunderbird.net" ].

(** [check_sites(verbose)] *)
Definition check_sites (w : world) (verbose : bool) : M (list string) :=
  check_sites_on w servers ssl_hosts verbose.

(** ** Notifications and [__main__] *)

(** [for x in l: body x] for a loop without [break]. *)
Fixpoint for_each {A : Type} (l : list A) (body : A -> M unit) : M unit :=
  match l with
  | [] => mret tt
  | x :: rest => body x;; for_each rest body
  end.

(** The command line, as [argparse] hands it over. *)
Record args : Type := {
  ci : bool;
  verbose : bool;
  delete : bool
}.

(** Python truth values: [None] is false, a stored record (a dict with four
    keys) is true; a list is true when it is not empty. *)
Definition truthy_last (last : option run_data) : bool :=
  match last with
  | Some _ => true
  | None => false
  end.

Definition truthy_list {A : Type} (l : list A) : bool :=
  match l with
  | [] => false
  | _ :: _ => true
  end.

(** The condition of line 188:
    [not last or errors or (not errors and last and last['results'] != 0)]. *)
Definition should_notify (last : option run_data) (errors : list string) : bool :=
  negb (truthy_last last)
  || truthy_list errors
  || (negb (truthy_list errors)
      && match last with
         | Some l => negb (results l =? 0)
         | None => false
         end).

(** The list [msg] built on lines 190-196. *)
Definition msg (rc : Z) (errors : list string) : list string :=
  if rc =? 0 then ["Sitecheck PASS"]
  else ["Sitecheck " +:+ pretty rc +:+ " Errors:"] ++ errors.

Section Main.

Variable w : world.

(** [send_sms_messages]: one [client.messages.create] per message. *)
Definition send_sms_messages (twilio_sid twilio_auth_token from_number to_number : string)
    (messages : list string) (verbose : bool) : M unit :=
  for_each messages (fun m =>
    sid ← call (TwilioCreate m from_number to_number)
              (fun t => twilio_create w t twilio_sid twilio_auth_token m from_number to_number);
    when verbose (print sid)).

(** [send_slack_messages]: one [requests.post] per message. *)
Definition send_slack_messages (slack_webhook_url : string) (messages : list string)
    (verbose : bool) : M unit :=
  for_each messages (fun m =>
    req ← call (HttpPost slack_webhook_url m)
              (fun t => requests_post w t slack_webhook_url m);
    when verbose
      (print ("Response from Slack webhook: " +:+ pretty (status_code req) +:+ " "
                +:+ str_bytes w (content req)))).

(** [os.environ[key]] *)
Definition environ_getitem (key : string) : M string := getitem (environ w) key.

(** The CI part of [__main__] (lines 160-212). *)
Definition ci_mode (a : args) (errors : list string) (rc : Z) : M unit :=
  aws_id ← environ_getitem "AWS_ACCESS_KEY_ID";
  aws_secret ← environ_getitem "AWS_SECRET_ACCESS_KEY";
  bucket ← environ_getitem "S3DATA_BUCKET";
  let s3key := "sitecheck-data" in
  when (delete a) (call (S3Delete s3key) (fun t => s3_delete w t s3key));;
  last ← call (S3Get s3key) (fun t => s3_get w t s3key);
  match last with
  | Some l =>
      stamp ← lift (strftime_local w (lastRun l) "%Y-%m-%d %H:%M:%S");
      print ("last run rc " +:+ pretty (results l) +:+ " at " +:+ pretty (lastRun l)
               +:+ " which is " +:+ stamp)
  | None => mret tt
  end;;
  now ← call TimeTime (fun t => Ok (time_time w t));
  let data := {| lastRun := now; version := 1; results := rc; errors := errors |} in
  call (S3Put s3key data) (fun t => s3_put w t s3key data);;
  if should_notify last errors then
    let msg := msg rc errors in
    when (verbose a) (print "CI mode");;
    twilio_sid ← environ_getitem "TWILIO_ACCOUNT_SID";
    twilio_auth_token ← environ_getitem "TWILIO_AUTH_TOKEN";
    from_number ← environ_getitem "TWILIO_FROM_NUMBER";
    to_number ← environ_getitem "TWILIO_TO_NUMBER";
    send_sms_messages twilio_sid twilio_auth_token from_number to_number msg (verbose a);;
    slack_webhook ← environ_getitem "SLACK_WEBHOOK";
    send_slack_messages slack_webhook msg (verbose a)
  else mret tt.

(** [__main__] with the two tables as arguments; the value is the status
    handed to [sys.exit]. *)
Definition main_on (servers : list server) (ssl_hosts : list string) (a : args) : M Z :=
  errors ← check_sites_on w servers ssl_hosts (verbose a);
  let rc := len errors in
  (if ci a then ci_mode a errors rc else mret tt);;
  mret rc.

Definition main (a : args) : M Z := main_on servers ssl_hosts a.

End Main.

(** ** Test doubles

    A world given by a table of HEAD answers, a table of GET answers, a
    table of certificates and a clock.  Patterns are searched as literal
    substrings, bytes decode to themselves, and a certificate date is read
    as a number of seconds. *)
Module Fixtures.

Fixpoint is_prefix (p s : string) : bool :=
  match p, s with
  | EmptyString, _ => true
  | String a p', String b s' => Ascii.eqb a b && is_prefix p' s'
  | String _ _, EmptyString => false
  end.

Fixpoint is_substring (p s : string) : bool :=
  is_prefix p s
  || match s with
     | EmptyString => false
     | String _ s' => is_substring p s'
     end.

Definition literal_findall (p s : string) : result (list string) :=
  Ok (if is_substring p s then [p] else []).

Fixpoint digits_value (s : string) (acc : Z) : option Z :=
  match s with
  | EmptyString => Some acc
  | String c rest =>
      let n := Z.of_N (N_of_ascii c) in
      if (48 <=? n) && (n <=? 57) then digits_value rest (10 * acc + (n - 48)) else None
  end.

Definition seconds_strptime (s fmt : string) : result Z :=
  match s with
  | EmptyString => Raise (ValueError "time data does not match format")
  | String "-" rest =>
      match digits_value rest 0 with
      | Some n => Ok (- n * us_per_second)
      | None => Raise (ValueError "time data does not match format")
      end
  | _ =>
      match digits_value s 0 with
      | Some n => Ok (n * us_per_second)
      | None => Raise (ValueError "time data does not match format")
      end
  end.

(** [fromtimestamp] as on Linux: the years 1 to 9999. *)
Definition plain_strftime (n : Z) (fmt : string) : result string :=
  if (-62135596800 <=? n) && (n <=? 253402300799) then Ok (pretty n)
  else Raise (ValueError "year is out of range").

Definition table_world
    (heads gets : string -> result response)
    (certs : string -> result (gmap string string))
    (now : Z) (stored : option run_data) (env : gmap string string) : world :=
  {| requests_head := fun _ u => heads u;
     requests_get := fun _ u => gets u;
     requests_post := fun _ _ _ =>
       Ok {| status_code := 200; headers := ∅; content := "ok" |};
     ssl_connect := fun _ h _ => certs h;
     utcnow := fun _ => now;
     time_time := fun _ => now / us_per_second;
     s3_delete := fun _ _ => Ok tt;
     s3_get := fun _ _ => Ok stored;
     s3_put := fun _ _ _ => Ok tt;
     twilio_create := fun _ _ _ _ _ _ => Ok "SM0";
     environ := env;
     decode_utf8 := fun b => Ok b;
     re_findall := literal_findall;
     strptime := seconds_strptime;
     strftime_local := plain_strftime;
     str_bytes := fun b => "b'" +:+ b +:+ "'" |}.

Definition answer (c : Z) (location : option string) (body : string) : result response :=
  Ok {| status_code := c;
        headers := match location with
                   | Some l => {[ "location" := l ]}
                   | None => ∅
                   end;
        content := body |}.

Definition cert_until (secs : string) : result (gmap string string) :=
  Ok {[ "notAfter" := secs ]}.

End Fixtures.

(** ** Vocabulary of the statements *)

(** The trace after the optional progress line of a loop body. *)
Definition announced (verbose : bool) (line : string) (t : trace) : trace :=
  if verbose then t ++ [Print line] else t.

(** The invariant Python keeps on the fields of a [timedelta]. *)
Definition normalised (d : timedelta) : Prop :=
  0 <= seconds d < 86400 /\ 0 <= microseconds d < us_per_second.

(** What lines 111-114 append for a remaining life time. *)
Definition ssl_verdict (s : string) (remaining : timedelta) : list string :=
  if total_us remaining <? 0 then
    ["Fail: SSL cert for " +:+ s +:+ " already expired!"]
  else if total_us remaining <? 3 * us_per_day then
    ["Fail: SSL cert for " +:+ s +:+ " expiring in "
       +:+ pretty (total_us remaining / us_per_day) +:+ " days"]
  else [].

(** [passes w verbose done errors t errors' t']: started with [errors] at
    trace [t], the site loop goes through all of [done] without exception
    and without [break], and stands at [errors'] and [t']. *)
Inductive passes (w : world) (verbose : bool)
  : list server -> list string -> trace -> list string -> trace -> Prop :=
| passes_nil errors t :
    passes w verbose [] errors t errors t
| passes_cons s rest errors t errors1 t1 errors2 t2 :
    server_body w verbose s errors t = (t1, Ok (Next, errors1)) ->
    passes w verbose rest errors1 t1 errors2 t2 ->
    passes w verbose (s :: rest) errors t errors2 t2.

(** The ways certificate inspection fails (lines 37-40): the connection or
    the handshake fails, the certificate has no [notAfter] field, or the
    field does not parse. *)
Inductive tls_failure (w : world) (hostname : string) (t : trace) : exn -> Prop :=
| connect_fails e :
    ssl_connect w t hostname 443 = Raise e ->
    tls_failure w hostname t e
| expiry_missing cert :
    ssl_connect w t hostname 443 = Ok cert ->
    cert !! "notAfter" = None ->
    tls_failure w hostname t (KeyError "notAfter")
| expiry_unparsable cert notAfter e :
    ssl_connect w t hostname 443 = Ok cert ->
    cert !! "notAfter" = Some notAfter ->
    strptime w notAfter "%b %d %H:%M:%S %Y %Z" = Raise e ->
    tls_failure w hostname t e.

(** [l] is what the loop body appends for the entry [s] in some state of
    the run. *)
Definition site_emits (w : world) (verbose : bool) (s : server) (l : list string) : Prop :=
  (length l <= 1)%nat
  /\ exists t t' fl, server_body w verbose s [] t = (t', Ok (fl, l)).

(** The same for the host [h] of the TLS loop. *)
Definition tls_emits (w : world) (verbose : bool) (h : string) (l : list string) : Prop :=
  (length l <= 1)%nat
  /\ exists t t', ssl_host_body w verbose h [] t = (t', Ok l).

(** [errors] accounts for the whole of both tables: it is what every entry
    of [servers] contributes, in table order, followed by what every host
    of [hosts] contributes, in table order. *)
Definition all_failures_in_table_order (w : world) (verbose : bool)
    (servers : list server) (hosts : list string) (errors : list string) : Prop :=
  exists per_site per_host : list (list string),
    errors = concat per_site ++ concat per_host
    /\ Forall2 (site_emits w verbose) servers per_site
    /\ Forall2 (tls_emits w verbose) hosts per_host.

(** The bodies of the SMS send calls of a trace, in the order of the calls. *)
Fixpoint sms_bodies (t : trace) : list string :=
  match t with
  | [] => []
  | TwilioCreate body _ _ :: rest => body :: sms_bodies rest
  | _ :: rest => sms_bodies rest
  end.

(** *** Selections from a trace *)

Definition sms_body (ev : event) : option string :=
  match ev with
  | TwilioCreate body _ _ => Some body
  | _ => None
  end.

Definition slack_text (ev : event) : option string :=
  match ev with
  | HttpPost _ text => Some text
  | _ => None
  end.

Definition s3_call (ev : event) : option event :=
  match ev with
  | S3Delete _ | S3Get _ | S3Put _ _ => Some ev
  | _ => None
  end.

Definition head_url (ev : event) : option string :=
  match ev with
  | HttpHead u => Some u
  | _ => None
  end.

Definition get_url (ev : event) : option string :=
  match ev with
  | HttpGet u => Some u
  | _ => None
  end.

(** The texts posted to Slack, the calls to the S3 store, and the URLs of
    the HEAD and of the GET requests of a trace, each in order. *)
Definition slack_texts (t : trace) : list string := omap slack_text t.
Definition s3_calls (t : trace) : list event := omap s3_call t.
Definition http_heads (t : trace) : list string := omap head_url t.
Definition http_gets (t : trace) : list string := omap get_url t.

(** The calls [check_sites] can make: HTTP HEAD and GET, the TLS connection
    and the clock; and progress lines when [verbose] is set. *)
Definition probe_event (ev : event) : bool :=
  match ev with
  | HttpHead _ | HttpGet _ | SslConnect _ _ | UtcNow => true
  | _ => false
  end.

Definition print_event (ev : event) : bool :=
  match ev with
  | Print _ => true
  | _ => false
  end.

Definition check_event (verbose : bool) (ev : event) : bool :=
  probe_event ev || (verbose && print_event ev).

(** The events of the site loop and those of the TLS loop. *)
Definition site_event (verbose : bool) (ev : event) : bool :=
  match ev with
  | HttpHead _ | HttpGet _ => true
  | Print _ => verbose
  | _ => false
  end.

Definition tls_event (verbose : bool) (ev : event) : bool :=
  match ev with
  | SslConnect _ _ | UtcNow => true
  | Print _ => verbose
  | _ => false
  end.

Definition tls_connect (ev : event) : option (string * Z) :=
  match ev with
  | SslConnect h p => Some (h, p)
  | _ => None
  end.

(** The TLS connections of a trace: host and port, in order. *)
Definition tls_connects (t : trace) : list (string * Z) := omap tls_connect t.

(** The events of the two notification channels, and those of the store. *)
Definition notify_event (ev : event) : bool :=
  match ev with
  | TwilioCreate _ _ _ | HttpPost _ _ | Print _ => true
  | _ => false
  end.

Definition store_event (ev : event) : bool :=
  match ev with
  | S3Delete _ | S3Get _ | S3Put _ _ | TimeTime | Print _ => true
  | _ => false
  end.

(** [t'] is [t] followed by events that all satisfy [P]. *)
Definition extends (P : event -> Prop) (t t' : trace) : Prop :=
  exists evs, t' = t ++ evs /\ Forall P evs.

(** Whatever its outcome, [m] only adds events that satisfy [P]. *)
Definition emits {A : Type} (P : event -> Prop) (m : M A) : Prop :=
  forall t t' r, m t = (t', r) -> extends P t t'.

(** *** The two halves of the CI part

    [ci_mode] first talks to the store (lines 168-185) and then, when the
    decision says so, notifies (lines 189-212).  The two halves, cut out of
    [ci_mode] as they stand there; [ci_mode_phases] below shows that
    [ci_mode] is their sequence. *)
Definition ci_store (w : world) (a : args) (errors : list string) (rc : Z)
  : M (option run_data) :=
  let s3key := "sitecheck-data" in
  when (delete a) (call (S3Delete s3key) (fun t => s3_delete w t s3key));;
  last ← call (S3Get s3key) (fun t => s3_get w t s3key);
  match last with
  | Some l =>
      stamp ← lift (strftime_local w (lastRun l) "%Y-%m-%d %H:%M:%S");
      print ("last run rc " +:+ pretty (results l) +:+ " at " +:+ pretty (lastRun l)
               +:+ " which is " +:+ stamp)
  | None => mret tt
  end;;
  now ← call TimeTime (fun t => Ok (time_time w t));
  let data := {| lastRun := now; version := 1; results := rc; errors := errors |} in
  call (S3Put s3key data) (fun t => s3_put w t s3key data);;
  mret last.

Definition ci_notify (w : world) (a : args) (batch : list string) : M unit :=
  when (verbose a) (print "CI mode");;
  twilio_sid ← environ_getitem w "TWILIO_ACCOUNT_SID";
  twilio_auth_token ← environ_getitem w "TWILIO_AUTH_TOKEN";
  from_number ← environ_getitem w "TWILIO_FROM_NUMBER";
  to_number ← environ_getitem w "TWILIO_TO_NUMBER";
  send_sms_messages w twilio_sid twilio_auth_token from_number to_number batch (verbose a);;
  slack_webhook ← environ_getitem w "SLACK_WEBHOOK";
  send_slack_messages w slack_webhook batch (verbose a).

(** The calls to the store of a CI run that stores [data]. *)
Definition store_calls (a : args) (data : run_data) : list event :=
  (if delete a then [S3Delete "sitecheck-data"] else [])
    ++ [S3Get "sitecheck-data"; S3Put "sitecheck-data" data].

(** ** Sample worlds *)

Module Samples.
Import Fixtures.

Definition site_a : server := redirect_entry "http://a.example/" 301 "https://a.example/".
Definition site_b : server := contents_entry "https://b.example/" 200 "Welcome".
Definition site_c : server := redirect_entry "http://c.example/" 302 "https://c.example/".

Definition no_cert (h : string) : result (gmap string string) :=
  Raise (OSError "timed out").

Definition full_env : gmap string string :=
  list_to_map
    [ ("AWS_ACCESS_KEY_ID", "id"); ("AWS_SECRET_ACCESS_KEY", "secret");
      ("S3DATA_BUCKET", "bucket"); ("TWILIO_ACCOUNT_SID", "AC0");
      ("TWILIO_AUTH_TOKEN", "token"); ("TWILIO_FROM_NUMBER", "+10000000000");
      ("TWILIO_TO_NUMBER", "+10000000001"); ("SLACK_WEBHOOK", "https://hooks.example/") ].

(** Every HEAD answers 301 towards another place. *)
Definition w_moved : world :=
  table_world (fun _ => answer 301 (Some "https://elsewhere.example/") "")
              (fun _ => answer 200 None "") no_cert 0 None ∅.

(** Every HEAD answers 301 without a [Location] header. *)
Definition w_no_location : world :=
  table_world (fun _ => answer 301 None "") (fun _ => answer 200 None "") no_cert 0 None ∅.

(** Every page answers 200 with a body that lacks the expected text. *)
Definition w_other_page : world :=
  table_world (fun _ => answer 200 None "") (fun _ => answer 200 None "<h1>Hello</h1>")
              no_cert 0 None ∅.

(** [a.example] answers 500 to HEAD; the others answer 200 to HEAD and 503
    to GET. *)
Definition w_flaky : world :=
  table_world (fun u => if String.eqb u "http://a.example/" then answer 500 None ""
                        else answer 200 None "")
              (fun _ => answer 503 None "") no_cert 0 None ∅.

(** [a.example] cannot be reached; the others answer 500. *)
Definition w_down : world :=
  table_world (fun u => if String.eqb u "http://a.example/"
                        then Raise (RequestException "connection refused")
                        else answer 500 None "")
              (fun _ => answer 200 None "") no_cert 0 None ∅.

(** The certificate of [a.example] ends one day and a half from now, the
    one of [b.example] ended, [c.example] does not answer on port 443. *)
Definition w_certs : world :=
  table_world (fun _ => answer 500 None "") (fun _ => answer 200 None "")
              (fun h => if String.eqb h "a.example" then cert_until "129600"
                        else if String.eqb h "b.example" then cert_until "-1"
                        else Raise (OSError "timed out"))
              0 None full_env.

(** The first entry of [servers] cannot be reached, with the message
    [requests] gives for a name that does not resolve; all certificates are
    valid for 90 days. *)
Definition unreachable : string :=
  "HTTPConnectionPool(host='www.readthedocs.org', port=80): Max retries exceeded with url: / (Caused by NewConnectionError('<urllib3.connection.HTTPConnection object at 0x7f2b5c0d3a90>: Failed to establish a new connection: [Errno -2] Name or service not known'))".

Definition w_unresolved : world :=
  table_world (fun _ => Raise (RequestException unreachable))
              (fun _ => answer 200 None "") (fun _ => cert_until "7776000") 0 None full_env.

(** Every site of [servers] answers as its entry expects, every certificate
    is valid for 90 days; [stored] is what the S3 store holds. *)
Definition healthy_head (u : string) : result response :=
  match find (fun s => String.eqb (url s) u) servers with
  | Some s => answer (code s) (redirect s) ""
  | None => Raise (RequestException "no such host")
  end.

Definition healthy_get (u : string) : result response :=
  match find (fun s => String.eqb (url s) u) servers with
  | Some s => answer 200 None ("<p>" +:+ default "" (contents s) +:+ "</p>")
  | None => Raise (RequestException "no such host")
  end.

Definition w_healthy (stored : option run_data) : world :=
  table_world healthy_head healthy_get (fun _ => cert_until "7776000") 0 stored full_env.

Definition earlier (n : Z) : option run_data :=
  Some {| lastRun := 0; version := 1; results := n; errors := [] |}.

Definition ci_args : args := {| ci := true; verbose := false; delete := false |}.
Definition plain_args : args := {| ci := false; verbose := false; delete := false |}.

(** Entries for the edges of the loop body: an expected status without a
    rule of its own, and entries that lack the key their status needs. *)
Definition site_gone : server :=
  {| url := "http://gone.example/"; code := 404; redirect := None; contents := None |}.
Definition site_no_redirect : server :=
  {| url := "http://a.example/"; code := 301; redirect := None; contents := None |}.
Definition site_no_contents : server :=
  {| url := "https://b.example/"; code := 200; redirect := None; contents := None |}.

(** Every HEAD answers 404. *)
Definition w_gone : world :=
  table_world (fun _ => answer 404 None "") (fun _ => answer 200 None "") no_cert 0 None ∅.

(** Every HEAD answers 200 and every GET fails on the network. *)
Definition w_get_down : world :=
  table_world (fun _ => answer 200 None "")
              (fun _ => Raise (RequestException "connection reset")) no_cert 0 None ∅.

(** [a.example] cannot be reached on port 80, the others answer 500; the
    certificate of [a.example] ends in a day and a half, the one of
    [b.example] ended. *)
Definition w_down_certs : world :=
  table_world (fun u => if String.eqb u "http://a.example/"
                        then Raise (RequestException "connection refused")
                        else answer 500 None "")
              (fun _ => answer 200 None "")
              (fun h => if String.eqb h "a.example" then cert_until "129600"
                        else cert_until "-1")
              0 None full_env.

(** A world with another Twilio, and one with another webhook. *)
Definition with_twilio (w : world)
    (f : trace -> string -> string -> string -> string -> string -> result string)
  : world :=
  {| requests_head := requests_head w; requests_get := requests_get w;
     requests_post := requests_post w; ssl_connect := ssl_connect w;
     utcnow := utcnow w; time_time := time_time w;
     s3_delete := s3_delete w; s3_get := s3_get w; s3_put := s3_put w;
     twilio_create := f;
     environ := environ w; decode_utf8 := decode_utf8 w; re_findall := re_findall w;
     strptime := strptime w; strftime_local := strftime_local w;
     str_bytes := str_bytes w |}.

Definition with_post (w : world) (f : trace -> string -> string -> result response)
  : world :=
  {| requests_head := requests_head w; requests_get := requests_get w;
     requests_post := f; ssl_connect := ssl_connect w;
     utcnow := utcnow w; time_time := time_time w;
     s3_delete := s3_delete w; s3_get := s3_get w; s3_put := s3_put w;
     twilio_create := twilio_create w;
     environ := environ w; decode_utf8 := decode_utf8 w; re_findall := re_findall w;
     strptime := strptime w; strftime_local := strftime_local w;
     str_bytes := str_bytes w |}.

(** Twilio accepts one message and refuses the following ones. *)
Definition w_sms_quota : world :=
  with_twilio w_unresolved
    (fun t _ _ _ _ _ =>
       match sms_bodies t with
       | [] => Ok "SM0"
       | _ :: _ => Raise (TwilioException "quota exceeded")
       end).

(** The webhook answers every post with status 500. *)
Definition w_slack_500 : world :=
  with_post w_unresolved
    (fun _ _ _ => Ok {| status_code := 500; headers := ∅; content := "no_service" |}).

(** Only the AWS settings are in the environment. *)
Definition aws_env : gmap string string :=
  list_to_map
    [ ("AWS_ACCESS_KEY_ID", "id"); ("AWS_SECRET_ACCESS_KEY", "secret");
      ("S3DATA_BUCKET", "bucket") ].

Definition w_no_twilio : world :=
  table_world (fun _ => Raise (RequestException "connection refused"))
              (fun _ => answer 200 None "") (fun _ => cert_until "7776000") 0 None aws_env.

(** The store holds a record whose [lastRun] was written in milliseconds. *)
Definition w_stale : world :=
  w_healthy (Some {| lastRun := 1700000000000; version := 1; results := 0; errors := [] |}).

Definition delete_args : args := {| ci := true; verbose := false; delete := true |}.

End Samples.

(** ** Reasoning about computations *)

Lemma bind_run {A B : Type} (m : M A) (k : A -> M B) (t : trace) :
  (m ≫= k) t =
  match m t with
  | (t', Ok a) => k a t'
  | (t', Raise e) => (t', Raise e)
  end.
Proof. reflexivity. Qed.

Lemma bind_ok {A B : Type} (m : M A) (k : A -> M B) (t t' : trace) (a : A) :
  m t = (t', Ok a) -> (m ≫= k) t = k a t'.
Proof. intros H. rewrite bind_run, H. reflexivity. Qed.

Lemma bind_raise {A B : Type} (m : M A) (k : A -> M B) (t t' : trace) (e : exn) :
  m t = (t', Raise e) -> (m ≫= k) t = (t', Raise e).
Proof. intros H. rewrite bind_run, H. reflexivity. Qed.

Lemma when_print_run (verbose : bool) (line : string) (t : trace) :
  when verbose (print line) t = (announced verbose line t, Ok tt).
Proof. destruct verbose; reflexivity. Qed.

(** ** Arithmetic of [timedelta] *)

Lemma us_per_day_pos : 0 < us_per_day.
Proof. reflexivity. Qed.

Lemma us_per_second_pos : 0 < us_per_second.
Proof. reflexivity. Qed.

Lemma timedelta_of_us_normalised (n : Z) : normalised (timedelta_of_us n).
Proof.
  unfold normalised, timedelta_of_us; simpl.
  pose proof (Z.mod_pos_bound n us_per_day us_per_day_pos) as Hd.
  pose proof (Z.mod_pos_bound n us_per_second us_per_second_pos) as Hs.
  split; [| exact Hs].
  split.
  - apply Z.div_pos; [lia | reflexivity].
  - apply Z.div_lt_upper_bound; [reflexivity |].
    unfold us_per_day, us_per_second in *. lia.
Qed.

Lemma total_us_of_us (n : Z) : total_us (timedelta_of_us n) = n.
Proof.
  unfold total_us, timedelta_of_us; simpl.
  assert (Hs : (n mod us_per_day) mod us_per_second = n mod us_per_second).
  { apply Z.mod_mod_divide. exists 86400. reflexivity. }
  rewrite <- Hs.
  pose proof (Z.div_mod n us_per_day) as Hd.
  pose proof (Z.div_mod (n mod us_per_day) us_per_second) as Hm.
  unfold us_per_day, us_per_second in *. lia.
Qed.

(** The tuple comparison of Python agrees with the order of the durations. *)
Lemma timedelta_lt_total (a b : timedelta) :
  normalised a -> normalised b ->
  timedelta_lt a b = (total_us a <? total_us b).
Proof.
  unfold normalised, timedelta_lt, total_us, us_per_day, us_per_second.
  intros [Hsa Hua] [Hsb Hub].
  destruct (Z.ltb_spec (days a) (days b)) as [Hd | Hd]; simpl.
  - symmetry. apply Z.ltb_lt. lia.
  - destruct (Z.eqb_spec (days a) (days b)) as [He | He]; simpl.
    + rewrite He.
      destruct (Z.ltb_spec (seconds a) (seconds b)) as [Hs | Hs]; simpl.
      * symmetry. apply Z.ltb_lt. lia.
      * destruct (Z.eqb_spec (seconds a) (seconds b)) as [Hes | Hes]; simpl.
        -- rewrite Hes.
           destruct (Z.ltb_spec (microseconds a) (microseconds b)).
           ++ symmetry. apply Z.ltb_lt. lia.
           ++ symmetry. apply Z.ltb_ge. lia.
        -- symmetry. apply Z.ltb_ge. lia.
    + symmetry. apply Z.ltb_ge. lia.
Qed.

Lemma timedelta_lt_days (a : timedelta) (d : Z) :
  normalised a ->
  timedelta_lt a (timedelta_days d) = (total_us a <? d * us_per_day).
Proof.
  intros Ha. unfold timedelta_days.
  rewrite timedelta_lt_total by (auto using timedelta_of_us_normalised).
  rewrite total_us_of_us. reflexivity.
Qed.

Lemma days_total (a : timedelta) :
  normalised a -> days a = total_us a / us_per_day.
Proof.
  unfold normalised, total_us, us_per_day, us_per_second.
  intros [Hs Hu].
  apply Z.div_unique with (r := seconds a * 1000000 + microseconds a); lia.
Qed.

(** ** The TLS hosts *)

Lemma ssl_valid_time_remaining_normalised (w : world) (s : string) (t t1 : trace)
    (remaining : timedelta) :
  ssl_valid_time_remaining w s t = (t1, Ok remaining) -> normalised remaining.
Proof.
  unfold ssl_valid_time_remaining. rewrite bind_run.
  destruct (ssl_expiry_datetime w s t) as [t' [expires | e]]; [| discriminate].
  rewrite bind_run. unfold call. cbn.
  intros H. injection H as _ <-. apply timedelta_of_us_normalised.
Qed.

Lemma ssl_host_body_ok (w : world) (verbose : bool) (s : string) (errors : list string)
    (t t1 : trace) (remaining : timedelta) :
  ssl_valid_time_remaining w s (announced verbose ("checking SSL " +:+ s) t)
    = (t1, Ok remaining) ->
  ssl_host_body w verbose s errors t = (t1, Ok (errors ++ ssl_verdict s remaining)).
Proof.
  intros H. pose proof (ssl_valid_time_remaining_normalised _ _ _ _ _ H) as Hn.
  unfold ssl_host_body.
  rewrite (bind_ok _ _ _ _ _ (when_print_run _ _ _)).
  rewrite (bind_ok _ _ _ _ _ H).
  rewrite !timedelta_lt_days by exact Hn.
  unfold ssl_verdict. change (0 * us_per_day) with 0.
  destruct (total_us remaining <? 0); [reflexivity |].
  destruct (total_us remaining <? 3 * us_per_day).
  - rewrite (days_total _ Hn). reflexivity.
  - rewrite app_nil_r. reflexivity.
Qed.

Lemma ssl_host_body_raise (w : world) (verbose : bool) (s : string) (errors : list string)
    (t t1 : trace) (e : exn) :
  ssl_valid_time_remaining w s (announced verbose ("checking SSL " +:+ s) t)
    = (t1, Raise e) ->
  ssl_host_body w verbose s errors t = (t1, Raise e).
Proof.
  intros H. unfold ssl_host_body.
  rewrite (bind_ok _ _ _ _ _ (when_print_run _ _ _)).
  apply bind_raise. exact H.
Qed.

(** C3. Certificate thresholds.  For every host whose certificate could be
    read: a remaining life time below zero appends the "already expired"
    failure; a remaining life time from zero (included) up to three days
    (excluded) appends the "expiring in N days" failure, where N is the
    whole number of days left (0, 1 or 2); three days or more append
    nothing. *)
Theorem C3_certificate_thresholds (w : world) (verbose : bool) (s : string)
    (errors : list string) (t t1 : trace) (remaining : timedelta) :
  ssl_valid_time_remaining w s (announced verbose ("checking SSL " +:+ s) t)
    = (t1, Ok remaining) ->
  (total_us remaining < 0 ->
   ssl_host_body w verbose s errors t
   = (t1, Ok (errors ++ ["Fail: SSL cert for " +:+ s +:+ " already expired!"])))
  /\ (0 <= total_us remaining < 3 * us_per_day ->
      ssl_host_body w verbose s errors t
      = (t1, Ok (errors ++ ["Fail: SSL cert for " +:+ s +:+ " expiring in "
                              +:+ pretty (total_us remaining / us_per_day) +:+ " days"]))
      /\ 0 <= total_us remaining / us_per_day <= 2)
  /\ (3 * us_per_day <= total_us remaining ->
      ssl_host_body w verbose s errors t = (t1, Ok errors)).
Proof.
  intros H. rewrite (ssl_host_body_ok _ _ _ _ _ _ _ H). unfold ssl_verdict.
  repeat split.
  - destruct (Z.ltb_spec (total_us remaining) 0); [reflexivity | lia].
  - destruct (Z.ltb_spec (total_us remaining) 0); [lia |].
    destruct (Z.ltb_spec (total_us remaining) (3 * us_per_day)); [reflexivity | lia].
  - apply Z.div_pos; [lia | reflexivity].
  - assert (total_us remaining / us_per_day < 3); [| lia].
    apply Z.div_lt_upper_bound; [reflexivity | lia].
  - destruct (Z.ltb_spec (total_us remaining) 0).
    + unfold us_per_day, us_per_second in *. lia.
    + destruct (Z.ltb_spec (total_us remaining) (3 * us_per_day)); [lia |].
      rewrite app_nil_r. reflexivity.
Qed.

(** ** The site loop *)

(** The loop body, by the answer to the HEAD request. *)
Lemma server_body_run (w : world) (verbose : bool) (s : server) (errors : list string)
    (t : trace) :
  let t0 := announced verbose ("checking " +:+ url s) t in
  let t1 := t0 ++ [HttpHead (url s)] in
  server_body w verbose s errors t =
  match requests_head w t0 (url s) with
  | Ok r => check_response w s r errors t1
  | Raise (RequestException e) =>
      (t1, Ok (Break, errors ++ ["Fail: " +:+ url s +:+ " exception " +:+ e]))
  | Raise e => (t1, Raise e)
  end.
Proof.
  cbn zeta. unfold server_body.
  rewrite (bind_ok _ _ _ _ _ (when_print_run _ _ _)).
  rewrite bind_run. unfold try_except_RequestException. rewrite bind_run.
  unfold call.
  destruct (requests_head w _ (url s)) as [r | []]; reflexivity.
Qed.

Ltac run_M := unfold mbind, M_bind, mret, M_ret, raise, lift, call; cbn beta iota.

Ltac head_answered Hhead Hcode :=
  rewrite server_body_run; cbn zeta; rewrite Hhead;
  unfold check_response; rewrite Hcode, Z.eqb_refl; cbn [negb].

(** C4. Redirect entries.  For every entry expecting 301 or 302 whose HEAD
    answer has the expected status: when the [Location] header differs from
    the expected redirect (exact string comparison), the body appends
    exactly one failure, naming the expected and the received target; when
    they are equal it appends nothing. *)
Theorem C4_redirect_check (w : world) (verbose : bool) (s : server)
    (errors : list string) (t : trace) (r : response) (location expected : string) :
  code s = 301 \/ code s = 302 ->
  requests_head w (announced verbose ("checking " +:+ url s) t) (url s) = Ok r ->
  status_code r = code s ->
  headers r !! lower "Location" = Some location ->
  redirect s = Some expected ->
  let t1 := announced verbose ("checking " +:+ url s) t ++ [HttpHead (url s)] in
  (location <> expected ->
   server_body w verbose s errors t
   = (t1, Ok (Next, errors ++ ["Fail: " +:+ url s +:+ " expected redirect "
                                 +:+ expected +:+ " received " +:+ location])))
  /\ (location = expected ->
      server_body w verbose s errors t = (t1, Ok (Next, errors))).
Proof.
  intros Hc Hhead Hst Hloc Hred t1.
  assert (Hbranch : (code s =? 301) || (code s =? 302) = true).
  { destruct Hc as [-> | ->]; reflexivity. }
  split; intros Hcmp.
  - head_answered Hhead Hst. rewrite Hbranch.
    unfold headers_getitem, getitem, server_getitem. rewrite Hloc, Hred. run_M.
    destruct (String.eqb_spec location expected) as [Heq | Hne]; [contradiction |].
    reflexivity.
  - head_answered Hhead Hst. rewrite Hbranch.
    unfold headers_getitem, getitem, server_getitem. rewrite Hloc, Hred. run_M.
    destruct (String.eqb_spec location expected) as [Heq | Hne]; [| contradiction].
    reflexivity.
Qed.

(** C5. Content entries.  For every entry expecting 200 whose HEAD answer is
    200 and whose GET answer is 200: when the search for the expected
    contents in the decoded body finds nothing, the body appends exactly one
    failure naming the missing contents; when it finds a match it appends
    nothing. *)
Theorem C5_contents_check (w : world) (verbose : bool) (s : server)
    (errors : list string) (t : trace) (r r2 : response) (pattern text : string) :
  code s = 200 ->
  requests_head w (announced verbose ("checking " +:+ url s) t) (url s) = Ok r ->
  status_code r = code s ->
  requests_get w (announced verbose ("checking " +:+ url s) t ++ [HttpHead (url s)]) (url s)
    = Ok r2 ->
  status_code r2 = 200 ->
  contents s = Some pattern ->
  decode_utf8 w (content r2) = Ok text ->
  let t2 := announced verbose ("checking " +:+ url s) t
              ++ [HttpHead (url s)] ++ [HttpGet (url s)] in
  (re_findall w pattern text = Ok [] ->
   server_body w verbose s errors t
   = (t2, Ok (Next, errors ++ ["Fail: " +:+ url s +:+ " expected contents " +:+ pattern])))
  /\ (forall m ms, re_findall w pattern text = Ok (m :: ms) ->
      server_body w verbose s errors t = (t2, Ok (Next, errors))).
Proof.
  intros Hc Hhead Hst Hget Hst2 Hcont Hdec t2.
  assert (Hrun : forall found, re_findall w pattern text = Ok found ->
            server_body w verbose s errors t
            = (t2, Ok (Next, match found with
                             | [] => errors ++ ["Fail: " +:+ url s +:+ " expected contents "
                                                  +:+ pattern]
                             | _ :: _ => errors
                             end))).
  { intros found Hfound. head_answered Hhead Hst. rewrite Hc.
    change ((200 =? 301) || (200 =? 302)) with false. change (200 =? 200) with true.
    cbn match. unfold server_getitem. rewrite Hcont. run_M.
    rewrite Hget, Hst2. change (negb (200 =? 200)) with false. cbn match.
    rewrite Hdec, Hfound. subst t2. rewrite app_assoc. destruct found; reflexivity. }
  split.
  - intros Hnone. apply (Hrun [] Hnone).
  - intros m ms Hsome. apply (Hrun (m :: ms) Hsome).
Qed.

(** C10. On the redirect path the [Location] header is read without a
    check.  For every entry whose HEAD answer has the expected status 301 or
    302: the body raises [KeyError] for the header, and appends nothing,
    exactly when the answer carries no [Location] header; nothing catches
    that exception, the site loop ends with it whatever entries follow. *)
Theorem C10_location_read_unconditionally (w : world) (verbose : bool) (s : server)
    (errors : list string) (t : trace) (r : response) :
  requests_head w (announced verbose ("checking " +:+ url s) t) (url s) = Ok r ->
  status_code r = code s ->
  code s = 301 \/ code s = 302 ->
  let t1 := announced verbose ("checking " +:+ url s) t ++ [HttpHead (url s)] in
  (headers r !! lower "Location" = None
   <-> server_body w verbose s errors t = (t1, Raise (KeyError (lower "Location"))))
  /\ (headers r !! lower "Location" = None ->
      forall rest : list server,
        for_servers w verbose (s :: rest) errors t
        = (t1, Raise (KeyError (lower "Location")))).
Proof.
  intros Hhead Hst Hc t1.
  assert (Hbranch : (code s =? 301) || (code s =? 302) = true).
  { destruct Hc as [-> | ->]; reflexivity. }
  assert (Hbody : headers r !! lower "Location" = None
                  <-> server_body w verbose s errors t
                      = (t1, Raise (KeyError (lower "Location")))).
  { head_answered Hhead Hst. rewrite Hbranch.
    unfold headers_getitem, getitem.
    destruct (headers r !! lower "Location") as [location |] eqn:Hloc.
    - split; [discriminate |]. unfold server_getitem.
      destruct (redirect s) as [expected |]; run_M.
      + destruct (negb (String.eqb location expected)); discriminate.
      + discriminate.
    - split; reflexivity. }
  split; [exact Hbody |].
  intros Hnone rest. cbn [for_servers]. apply bind_raise. apply Hbody. exact Hnone.
Qed.

Lemma for_servers_passes (w : world) (verbose : bool) (done rest : list server)
    (errors errors' : list string) (t t' : trace) :
  passes w verbose done errors t errors' t' ->
  for_servers w verbose (done ++ rest) errors t = for_servers w verbose rest errors' t'.
Proof.
  induction 1 as [| s done' errors t errors1 t1 errors2 t2 Hbody _ IH]; [reflexivity |].
  cbn [app for_servers]. rewrite (bind_ok _ _ _ _ _ Hbody). exact IH.
Qed.

Lemma for_servers_body_raise (w : world) (verbose : bool) (s : server)
    (rest : list server) (errors : list string) (t t' : trace) (e : exn) :
  server_body w verbose s errors t = (t', Raise e) ->
  for_servers w verbose (s :: rest) errors t = (t', Raise e).
Proof. intros H. cbn [for_servers]. apply bind_raise. exact H. Qed.

Lemma for_servers_body_break (w : world) (verbose : bool) (s : server)
    (rest : list server) (errors errors' : list string) (t t' : trace) :
  server_body w verbose s errors t = (t', Ok (Break, errors')) ->
  for_servers w verbose (s :: rest) errors t = (t', Ok errors').
Proof. intros H. cbn [for_servers]. rewrite (bind_ok _ _ _ _ _ H). reflexivity. Qed.

Lemma check_sites_on_servers_raise (w : world) (servers : list server)
    (hosts : list string) (verbose : bool) (t t' : trace) (e : exn) :
  for_servers w verbose servers [] t = (t', Raise e) ->
  check_sites_on w servers hosts verbose t = (t', Raise e).
Proof. intros H. unfold check_sites_on. apply bind_raise. exact H. Qed.

Lemma main_on_check_raise (w : world) (servers : list server) (hosts : list string)
    (a : args) (t t' : trace) (e : exn) :
  check_sites_on w servers hosts (verbose a) t = (t', Raise e) ->
  main_on w servers hosts a t = (t', Raise e).
Proof. intros H. unfold main_on. apply bind_raise. exact H. Qed.

(** C6. HEAD says 200, GET does not: the run dies.  Whenever the site loop
    reaches an entry expecting 200 whose HEAD answer is 200 and whose GET
    answer has another status, [check_sites] raises an exception that nothing
    catches: it returns no error list (the failures collected so far are
    lost with it), and [__main__] ends with that exception. *)
Theorem C6_get_not_200_is_fatal (w : world) (a : args) (done rest : list server)
    (s : server) (hosts : list string) (t t1 : trace) (errors1 : list string)
    (r r2 : response) :
  passes w (verbose a) done [] t errors1 t1 ->
  code s = 200 ->
  requests_head w (announced (verbose a) ("checking " +:+ url s) t1) (url s) = Ok r ->
  status_code r = 200 ->
  requests_get w (announced (verbose a) ("checking " +:+ url s) t1 ++ [HttpHead (url s)])
    (url s) = Ok r2 ->
  status_code r2 <> 200 ->
  let t2 := announced (verbose a) ("checking " +:+ url s) t1
              ++ [HttpHead (url s)] ++ [HttpGet (url s)] in
  let fatal := Exception ("unexpected http response code 200 from get " +:+ url s) in
  check_sites_on w (done ++ s :: rest) hosts (verbose a) t = (t2, Raise fatal)
  /\ main_on w (done ++ s :: rest) hosts a t = (t2, Raise fatal).
Proof.
  intros Hdone Hc Hhead Hst Hget Hst2 t2 fatal.
  assert (Hcheck : check_sites_on w (done ++ s :: rest) hosts (verbose a) t
                   = (t2, Raise fatal)).
  { apply check_sites_on_servers_raise.
    rewrite (for_servers_passes _ _ _ _ _ _ _ _ Hdone).
    apply for_servers_body_raise.
    rewrite server_body_run. cbn zeta. rewrite Hhead.
    unfold check_response. rewrite Hst, Hc.
    change (negb (200 =? 200)) with false.
    change ((200 =? 301) || (200 =? 302)) with false. change (200 =? 200) with true.
    cbn match. run_M. rewrite Hget.
    destruct (Z.eqb_spec (status_code r2) 200) as [Heq | Hne]; [contradiction |].
    cbn [negb]. subst t2 fatal. rewrite app_assoc. reflexivity. }
  split; [exact Hcheck |].
  apply main_on_check_raise. exact Hcheck.
Qed.

(** C1. What the code does on a network failure.  When the HEAD request of
    an entry raises a [RequestException], the body appends exactly one
    failure for that entry, after the failures of the entries before it, and
    the [break] leaves the loop: whatever entries follow, none of them is
    probed (the trace ends with the failed HEAD) and none contributes to
    the list. *)
Theorem C1_network_failure_ends_site_loop (w : world) (verbose : bool)
    (done rest : list server) (s : server) (t t1 : trace) (errors1 : list string)
    (e : string) :
  passes w verbose done [] t errors1 t1 ->
  requests_head w (announced verbose ("checking " +:+ url s) t1) (url s)
    = Raise (RequestException e) ->
  for_servers w verbose (done ++ s :: rest) [] t
  = (announced verbose ("checking " +:+ url s) t1 ++ [HttpHead (url s)],
     Ok (errors1 ++ ["Fail: " +:+ url s +:+ " exception " +:+ e])).
Proof.
  intros Hdone Hhead.
  rewrite (for_servers_passes _ _ _ _ _ _ _ _ Hdone).
  apply for_servers_body_break.
  rewrite server_body_run. cbn zeta. rewrite Hhead. reflexivity.
Qed.

(** ** The TLS loop *)

Lemma for_ssl_hosts_app (w : world) (verbose : bool) (done rest : list string)
    (errors errors' : list string) (t t' : trace) :
  for_ssl_hosts w verbose done errors t = (t', Ok errors') ->
  for_ssl_hosts w verbose (done ++ rest) errors t = for_ssl_hosts w verbose rest errors' t'.
Proof.
  revert errors t. induction done as [| h done' IH]; intros errors t H.
  - cbn in H. injection H as <- <-. reflexivity.
  - cbn [app for_ssl_hosts] in *. rewrite bind_run in *.
    destruct (ssl_host_body w verbose h errors t) as [t0 [errors0 | e]]; [| discriminate].
    apply IH. exact H.
Qed.

Lemma ssl_valid_time_remaining_fails (w : world) (hostname : string) (t : trace)
    (e : exn) :
  tls_failure w hostname t e ->
  ssl_valid_time_remaining w hostname t = (t ++ [SslConnect hostname 443], Raise e).
Proof.
  intros H. unfold ssl_valid_time_remaining, ssl_expiry_datetime, getitem. run_M.
  destruct H as [e Hc | cert Hc Hk | cert notAfter e Hc Hk Hp].
  - rewrite Hc. reflexivity.
  - rewrite Hc, Hk. reflexivity.
  - rewrite Hc, Hk, Hp. reflexivity.
Qed.

(** C7. What the code does on a TLS failure.  When certificate inspection of
    a host fails (connection, handshake or time-out; no expiry field; expiry
    field that does not parse), the exception is caught nowhere:
    [check_sites] raises it and returns no error list, the hosts after it
    are not inspected, and [__main__] ends with it. *)
Theorem C7_tls_failure_aborts_run (w : world) (a : args) (servers : list server)
    (done rest : list string) (h : string) (t t0 t1 : trace)
    (errors0 errors1 : list string) (e : exn) :
  for_servers w (verbose a) servers [] t = (t0, Ok errors0) ->
  for_ssl_hosts w (verbose a) done errors0 t0 = (t1, Ok errors1) ->
  tls_failure w h (announced (verbose a) ("checking SSL " +:+ h) t1) e ->
  let t2 := announced (verbose a) ("checking SSL " +:+ h) t1 ++ [SslConnect h 443] in
  check_sites_on w servers (done ++ h :: rest) (verbose a) t = (t2, Raise e)
  /\ main_on w servers (done ++ h :: rest) a t = (t2, Raise e).
Proof.
  intros Hsites Hdone Hfail t2.
  assert (Hcheck : check_sites_on w servers (done ++ h :: rest) (verbose a) t
                   = (t2, Raise e)).
  { unfold check_sites_on. rewrite (bind_ok _ _ _ _ _ Hsites).
    apply bind_raise. rewrite (for_ssl_hosts_app _ _ _ _ _ _ _ _ Hdone).
    cbn [for_ssl_hosts]. apply bind_raise.
    apply ssl_host_body_raise. apply ssl_valid_time_remaining_fails. exact Hfail. }
  split; [exact Hcheck |].
  apply main_on_check_raise. exact Hcheck.
Qed.

(** ** Order of the failures *)

(** The loop bodies only ever append to [errors], at most one entry, and
    what they append does not depend on what is already there. *)
Lemma check_response_appends (w : world) (s : server) (r : response)
    (errors : list string) (t : trace) :
  check_response w s r errors t =
  match check_response w s r [] t with
  | (t', Ok (fl, l)) => (t', Ok (fl, errors ++ l))
  | (t', Raise e) => (t', Raise e)
  end.
Proof.
  unfold check_response, headers_getitem, getitem, server_getitem. run_M.
  repeat case_match; simplify_eq; rewrite ?app_nil_r; reflexivity.
Qed.

Lemma check_response_short (w : world) (s : server) (r : response) (t t' : trace)
    (fl : flow) (l : list string) :
  check_response w s r [] t = (t', Ok (fl, l)) -> (length l <= 1)%nat.
Proof.
  unfold check_response, headers_getitem, getitem, server_getitem. run_M.
  intros H. repeat case_match; simplify_eq; cbn; lia.
Qed.

Lemma server_body_appends (w : world) (verbose : bool) (s : server)
    (errors errors' : list string) (t t' : trace) (fl : flow) :
  server_body w verbose s errors t = (t', Ok (fl, errors')) ->
  exists l, errors' = errors ++ l
            /\ (length l <= 1)%nat
            /\ server_body w verbose s [] t = (t', Ok (fl, l)).
Proof.
  rewrite !server_body_run. cbn zeta.
  destruct (requests_head w _ (url s)) as [r | e].
  - rewrite check_response_appends.
    destruct (check_response w s r [] _) as [t1 [[fl1 l] | e]] eqn:Hr; [| discriminate].
    intros H. injection H as <- <- <-.
    exists l. split; [reflexivity |]. split; [| reflexivity].
    eapply check_response_short. exact Hr.
  - destruct e; try discriminate.
    intros H. injection H as <- <- <-.
    eexists. split; [reflexivity |]. split; [| reflexivity]. cbn. lia.
Qed.

Lemma ssl_host_body_appends (w : world) (verbose : bool) (h : string)
    (errors errors' : list string) (t t' : trace) :
  ssl_host_body w verbose h errors t = (t', Ok errors') ->
  exists l, errors' = errors ++ l
            /\ (length l <= 1)%nat
            /\ ssl_host_body w verbose h [] t = (t', Ok l).
Proof.
  destruct (ssl_valid_time_remaining w h (announced verbose ("checking SSL " +:+ h) t))
    as [t1 [remaining | e]] eqn:Hr.
  - rewrite !(ssl_host_body_ok _ _ _ _ _ _ _ Hr).
    intros H. injection H as <- <-.
    exists (ssl_verdict h remaining). split; [reflexivity |]. split; [| reflexivity].
    unfold ssl_verdict. repeat case_match; cbn; lia.
  - rewrite (ssl_host_body_raise _ _ _ _ _ _ _ Hr). discriminate.
Qed.

Lemma for_servers_order (w : world) (verbose : bool) (servers : list server)
    (errors errors' : list string) (t t' : trace) :
  for_servers w verbose servers errors t = (t', Ok errors') ->
  exists per_site : list (list string),
    errors' = errors ++ concat per_site
    /\ (length per_site <= length servers)%nat
    /\ Forall2 (site_emits w verbose) (take (length per_site) servers) per_site.
Proof.
  revert errors t. induction servers as [| s rest IH]; intros errors t H.
  - cbn in H. injection H as <- <-.
    exists []. cbn. rewrite app_nil_r. repeat split; [lia | constructor].
  - cbn [for_servers] in H. rewrite bind_run in H.
    destruct (server_body w verbose s errors t) as [t1 [[fl errors1] | e]] eqn:Hb;
      [| discriminate].
    destruct (server_body_appends _ _ _ _ _ _ _ _ Hb) as (l & -> & Hlen & Hl).
    destruct fl.
    + destruct (IH _ _ H) as (per_site & -> & Hn & Hall).
      exists (l :: per_site). cbn. rewrite app_assoc.
      repeat split; [lia |].
      constructor; [| exact Hall].
      split; [exact Hlen | eauto].
    + injection H as <- <-.
      exists [l]. cbn. rewrite app_nil_r.
      repeat split; [lia |].
      constructor; [| constructor].
      split; [exact Hlen | eauto].
Qed.

Lemma for_ssl_hosts_order (w : world) (verbose : bool) (hosts : list string)
    (errors errors' : list string) (t t' : trace) :
  for_ssl_hosts w verbose hosts errors t = (t', Ok errors') ->
  exists per_host : list (list string),
    errors' = errors ++ concat per_host
    /\ Forall2 (tls_emits w verbose) hosts per_host.
Proof.
  revert errors t. induction hosts as [| h rest IH]; intros errors t H.
  - cbn in H. injection H as <- <-.
    exists []. cbn. rewrite app_nil_r. split; [reflexivity | constructor].
  - cbn [for_ssl_hosts] in H. rewrite bind_run in H.
    destruct (ssl_host_body w verbose h errors t) as [t1 [errors1 | e]] eqn:Hb;
      [| discriminate].
    destruct (ssl_host_body_appends _ _ _ _ _ _ _ Hb) as (l & -> & Hlen & Hl).
    destruct (IH _ _ H) as (per_host & -> & Hall).
    exists (l :: per_host). cbn. rewrite app_assoc.
    split; [reflexivity |].
    constructor; [| exact Hall].
    split; [exact Hlen | eauto].
Qed.

Lemma check_sites_on_inv (w : world) (servers : list server) (hosts : list string)
    (verbose : bool) (t t' : trace) (errors : list string) :
  check_sites_on w servers hosts verbose t = (t', Ok errors) ->
  exists t0 t1 errors0,
    for_servers w verbose servers [] t = (t0, Ok errors0)
    /\ for_ssl_hosts w verbose hosts errors0 t0 = (t1, Ok errors).
Proof.
  unfold check_sites_on. rewrite bind_run.
  destruct (for_servers w verbose servers [] t) as [t0 [errors0 | e]] eqn:Hs;
    [| discriminate].
  rewrite bind_run.
  destruct (for_ssl_hosts w verbose hosts errors0 t0) as [t1 [errors1 | e]] eqn:Hh;
    [| discriminate].
  intros H. exists t0, t1, errors0. split; [reflexivity |].
  destruct verbose; cbn in H; injection H as _ <-; exact Hh.
Qed.

Lemma main_on_inv (w : world) (servers : list server) (hosts : list string)
    (a : args) (t t' : trace) (rc : Z) :
  main_on w servers hosts a t = (t', Ok rc) ->
  exists t1 errors,
    check_sites_on w servers hosts (verbose a) t = (t1, Ok errors) /\ rc = len errors.
Proof.
  unfold main_on. rewrite bind_run.
  destruct (check_sites_on w servers hosts (verbose a) t) as [t1 [errors | e]] eqn:Hc;
    [| discriminate].
  rewrite bind_run.
  destruct ((if ci a then ci_mode w a errors (len errors) else mret tt) t1)
    as [t2 [[] | e]]; [| discriminate].
  intros H. injection H as _ <-. eauto.
Qed.

(** What does hold of every returned list: it is what the entries that were
    evaluated contributed, in table order, the entries evaluated being an
    initial part of the table (all of it only when no [break] happened),
    followed by what the TLS hosts contributed, in table order; and the
    exit status [__main__] hands to [sys.exit] is the length of the list. *)
Lemma errors_in_evaluation_order (w : world) (servers : list server)
    (hosts : list string) (verbose' : bool) (t t' : trace) (errors : list string) :
  check_sites_on w servers hosts verbose' t = (t', Ok errors) ->
  (exists (per_site per_host : list (list string)),
      errors = concat per_site ++ concat per_host
      /\ (length per_site <= length servers)%nat
      /\ Forall2 (site_emits w verbose') (take (length per_site) servers) per_site
      /\ Forall2 (tls_emits w verbose') hosts per_host)
  /\ (forall (a : args) (t'' : trace) (rc : Z),
        verbose a = verbose' ->
        main_on w servers hosts a t = (t'', Ok rc) ->
        rc = Z.of_nat (length errors)).
Proof.
  intros H. split.
  - destruct (check_sites_on_inv _ _ _ _ _ _ _ H) as (t0 & t1 & errors0 & Hs & Hh).
    destruct (for_servers_order _ _ _ _ _ _ _ Hs) as (per_site & -> & Hn & Hsites).
    destruct (for_ssl_hosts_order _ _ _ _ _ _ _ Hh) as (per_host & -> & Hhosts).
    exists per_site, per_host. cbn [app]. auto.
  - intros a t'' rc Hv Hmain.
    destruct (main_on_inv _ _ _ _ _ _ _ Hmain) as (t1 & errors1 & Hc & ->).
    rewrite Hv, H in Hc. injection Hc as _ <-. reflexivity.
Qed.

(** ** The notification decision *)

(** C2. The decision of line 188 is to notify exactly when there is no
    earlier result, or the run has failures, or the earlier result had
    failures and the run has none; it is not to notify exactly when the
    earlier result and the run both count zero failures. *)
Theorem C2_notification_decision (last : option run_data) (errors : list string) :
  (should_notify last errors = true
   <-> last = None
       \/ 0 < len errors
       \/ (exists l, last = Some l /\ results l <> 0 /\ len errors = 0))
  /\ (should_notify last errors = false
      <-> exists l, last = Some l /\ results l = 0 /\ len errors = 0).
Proof.
  unfold should_notify, len.
  destruct last as [l |]; destruct errors as [| e errors]; cbn [truthy_last truthy_list negb orb andb length].
  - destruct (Z.eqb_spec (results l) 0) as [Hz | Hnz]; cbn [negb]; split; split.
    + discriminate.
    + intros [H | [H | (l' & H & Hr & _)]]; [discriminate | lia |].
      injection H as <-. contradiction.
    + intros _. exists l. auto.
    + reflexivity.
    + intros _. right. right. exists l. auto.
    + reflexivity.
    + discriminate.
    + intros (l' & H & Hr & _). injection H as <-. contradiction.
  - split; split.
    + intros _. right. left. lia.
    + reflexivity.
    + discriminate.
    + intros (l' & _ & _ & H). lia.
  - split; split.
    + intros _. left. reflexivity.
    + reflexivity.
    + discriminate.
    + intros (l' & H & _). discriminate.
  - split; split.
    + intros _. left. reflexivity.
    + reflexivity.
    + discriminate.
    + intros (l' & H & _). discriminate.
Qed.

(** ** The messages sent *)

Lemma sms_bodies_app (t1 t2 : trace) : sms_bodies (t1 ++ t2) = sms_bodies t1 ++ sms_bodies t2.
Proof.
  induction t1 as [| ev t1 IH]; [reflexivity |].
  destruct ev; cbn; rewrite IH; reflexivity.
Qed.

(** When no send raises, [send_sms_messages] issues one send call per
    message, in order, with the message as its body. *)
Lemma send_sms_messages_bodies (w : world) (sid token from_number to_number : string)
    (messages : list string) (verbose' : bool) (t t' : trace) :
  send_sms_messages w sid token from_number to_number messages verbose' t = (t', Ok tt) ->
  sms_bodies t' = sms_bodies t ++ messages.
Proof.
  unfold send_sms_messages. revert t.
  induction messages as [| m rest IH]; intros t H.
  - cbn in H. injection H as <-. rewrite app_nil_r. reflexivity.
  - cbn [for_each] in H. rewrite !bind_run in H. unfold call at 1 in H.
    destruct (twilio_create w t sid token m from_number to_number) as [sid' | e];
      [| discriminate].
    rewrite when_print_run in H.
    rewrite (IH _ H). unfold announced.
    destruct verbose'; rewrite !sms_bodies_app; cbn; rewrite ?app_nil_r, <- app_assoc;
      reflexivity.
Qed.

Lemma concat_text_nonempty (errors : list string) :
  (160 < String.length (String.concat "" errors))%nat -> errors <> [].
Proof. intros H ->. cbn in H. lia. Qed.

(** The messages of a run with failures: for every run whose failures'
    concatenated text is longer than 160 characters, the messages are a
    header with the count followed by one message per failure, the failure's
    text unchanged and in the order of the list.  When no send raises,
    [send_sms_messages] issues at least two send calls, which together carry
    all the text in order; a message is within 160 characters exactly when
    the text it carries is: nothing is split or cut. *)
Lemma messages_one_per_error (w : world) (sid token from_number to_number : string)
    (verbose' : bool) (errors : list string) (t t' : trace) :
  (160 < String.length (String.concat "" errors))%nat ->
  send_sms_messages w sid token from_number to_number
    (msg (len errors) errors) verbose' t = (t', Ok tt) ->
  let header := "Sitecheck " +:+ pretty (len errors) +:+ " Errors:" in
  sms_bodies t' = sms_bodies t ++ header :: errors
  /\ (2 <= length (header :: errors))%nat
  /\ (Forall (fun m => (String.length m <= 160)%nat) (header :: errors)
      <-> (String.length header <= 160)%nat
          /\ Forall (fun e => (String.length e <= 160)%nat) errors).
Proof.
  intros Hlong Hsend header.
  pose proof (concat_text_nonempty _ Hlong) as Hne.
  assert (Hmsg : msg (len errors) errors = header :: errors).
  { unfold msg, len. destruct errors as [| e errors]; [contradiction | reflexivity]. }
  rewrite Hmsg in Hsend.
  split; [exact (send_sms_messages_bodies _ _ _ _ _ _ _ _ _ Hsend) |].
  split.
  - destruct errors; [contradiction | cbn; lia].
  - rewrite Forall_cons. reflexivity.
Qed.

(** ** The theorems at work on the sample worlds *)

(** A healthy run over the real tables finds nothing and exits with 0. *)
Example healthy_run :
  snd (check_sites (Samples.w_healthy None) false []) = Ok []
  /\ snd (main (Samples.w_healthy None) Samples.plain_args []) = Ok 0.
Proof. split; vm_compute; reflexivity. Qed.

(** In CI mode the first healthy run notifies, a healthy run after a healthy
    run is silent, and a healthy run after a failing one reports the
    recovery. *)
Example healthy_run_notifications :
  sms_bodies (fst (main (Samples.w_healthy None) Samples.ci_args [])) = ["Sitecheck PASS"]
  /\ sms_bodies (fst (main (Samples.w_healthy (Samples.earlier 0)) Samples.ci_args [])) = []
  /\ sms_bodies (fst (main (Samples.w_healthy (Samples.earlier 2)) Samples.ci_args []))
     = ["Sitecheck PASS"].
Proof. repeat split; vm_compute; reflexivity. Qed.

(** With [--verbose] the run prints its progress and the summary. *)
Example verbose_run :
  fst (check_sites_on Samples.w_moved [Samples.site_a] [] true [])
  = [Print "checking http://a.example/";
     HttpHead "http://a.example/";
     Print "Done. 1 server and 0 SSL certs checks; found 1 error(s)";
     Print (esc +:+ "[91m"
              +:+ "Fail: http://a.example/ expected redirect https://a.example/ received https://elsewhere.example/"
              +:+ esc +:+ "[0m")].
Proof. vm_compute. reflexivity. Qed.

Lemma C3_certificate_thresholds_witness :
  ssl_host_body Samples.w_certs false "a.example" [] []
  = ([SslConnect "a.example" 443; UtcNow],
     Ok ["Fail: SSL cert for a.example expiring in 1 days"]).
Proof.
  assert (H : ssl_valid_time_remaining Samples.w_certs "a.example"
                (announced false ("checking SSL " +:+ "a.example") [])
              = ([SslConnect "a.example" 443; UtcNow],
                 Ok (timedelta_of_us (129600 * us_per_second)))).
  { vm_compute. reflexivity. }
  destruct (C3_certificate_thresholds Samples.w_certs false "a.example" [] [] _ _ H)
    as (_ & Hsoon & _).
  apply Hsoon. vm_compute. split; [discriminate | reflexivity].
Defined.

Lemma C4_redirect_check_witness :
  server_body Samples.w_moved false Samples.site_a [] []
  = ([HttpHead "http://a.example/"],
     Ok (Next, ["Fail: http://a.example/ expected redirect https://a.example/ received https://elsewhere.example/"])).
Proof.
  apply (C4_redirect_check Samples.w_moved false Samples.site_a [] []
           {| status_code := 301; headers := {[ "location" := "https://elsewhere.example/" ]};
              content := "" |}
           "https://elsewhere.example/" "https://a.example/").
  - left. reflexivity.
  - reflexivity.
  - reflexivity.
  - vm_compute. reflexivity.
  - reflexivity.
  - discriminate.
Defined.

Lemma C5_contents_check_witness :
  server_body Samples.w_other_page false Samples.site_b [] []
  = ([HttpHead "https://b.example/"; HttpGet "https://b.example/"],
     Ok (Next, ["Fail: https://b.example/ expected contents Welcome"])).
Proof.
  apply (C5_contents_check Samples.w_other_page false Samples.site_b [] []
           {| status_code := 200; headers := ∅; content := "" |}
           {| status_code := 200; headers := ∅; content := "<h1>Hello</h1>" |}
           "Welcome" "<h1>Hello</h1>"); reflexivity.
Defined.

Lemma C10_location_read_unconditionally_witness :
  server_body Samples.w_no_location false Samples.site_a [] []
  = ([HttpHead "http://a.example/"], Raise (KeyError "location")).
Proof.
  apply (C10_location_read_unconditionally Samples.w_no_location false Samples.site_a [] []
           {| status_code := 301; headers := ∅; content := "" |}).
  - reflexivity.
  - reflexivity.
  - left. reflexivity.
  - vm_compute. reflexivity.
Defined.

Lemma C6_get_not_200_is_fatal_witness :
  check_sites_on Samples.w_flaky [Samples.site_a; Samples.site_b; Samples.site_c] [] false []
  = ([HttpHead "http://a.example/"; HttpHead "https://b.example/";
      HttpGet "https://b.example/"],
     Raise (Exception "unexpected http response code 200 from get https://b.example/")).
Proof.
  apply (C6_get_not_200_is_fatal Samples.w_flaky Samples.plain_args
           [Samples.site_a] [Samples.site_c] Samples.site_b [] []
           [HttpHead "http://a.example/"]
           ["Fail: http://a.example/ expected response code 301 received 500"]
           {| status_code := 200; headers := ∅; content := "" |}
           {| status_code := 503; headers := ∅; content := "" |}).
  - apply (passes_cons _ _ Samples.site_a [] [] []
             ["Fail: http://a.example/ expected response code 301 received 500"]
             [HttpHead "http://a.example/"]); [reflexivity | apply passes_nil].
  - reflexivity.
  - reflexivity.
  - reflexivity.
  - reflexivity.
  - discriminate.
Defined.

Lemma C1_network_failure_ends_site_loop_witness :
  for_servers Samples.w_down false [Samples.site_a; Samples.site_b; Samples.site_c] [] []
  = ([HttpHead "http://a.example/"],
     Ok ["Fail: http://a.example/ exception connection refused"]).
Proof.
  apply (C1_network_failure_ends_site_loop Samples.w_down false
           [] [Samples.site_b; Samples.site_c] Samples.site_a [] [] []
           "connection refused").
  - apply passes_nil.
  - reflexivity.
Defined.

Lemma C7_tls_failure_aborts_run_witness :
  check_sites_on Samples.w_certs [] ["a.example"; "c.example"; "b.example"] false []
  = ([SslConnect "a.example" 443; UtcNow; SslConnect "c.example" 443],
     Raise (OSError "timed out")).
Proof.
  apply (C7_tls_failure_aborts_run Samples.w_certs Samples.plain_args []
           ["a.example"] ["b.example"] "c.example" [] []
           [SslConnect "a.example" 443; UtcNow]
           [] ["Fail: SSL cert for a.example expiring in 1 days"] (OSError "timed out")).
  - reflexivity.
  - vm_compute. reflexivity.
  - apply connect_fails. reflexivity.
Defined.

Example errors_in_evaluation_order_sample :
  main_on Samples.w_certs [Samples.site_a; Samples.site_b] ["a.example"; "b.example"]
    Samples.plain_args []
  = ([HttpHead "http://a.example/"; HttpHead "https://b.example/";
      SslConnect "a.example" 443; UtcNow; SslConnect "b.example" 443; UtcNow],
     Ok 4)
  /\ 4 = Z.of_nat (length
           ["Fail: http://a.example/ expected response code 301 received 500";
            "Fail: https://b.example/ expected response code 200 received 500";
            "Fail: SSL cert for a.example expiring in 1 days";
            "Fail: SSL cert for b.example already expired!"]).
Proof.
  assert (Hmain : main_on Samples.w_certs [Samples.site_a; Samples.site_b]
                    ["a.example"; "b.example"] Samples.plain_args []
                  = ([HttpHead "http://a.example/"; HttpHead "https://b.example/";
                      SslConnect "a.example" 443; UtcNow; SslConnect "b.example" 443; UtcNow],
                     Ok 4)).
  { vm_compute. reflexivity. }
  split; [exact Hmain |].
  refine (proj2 (errors_in_evaluation_order Samples.w_certs
                   [Samples.site_a; Samples.site_b] ["a.example"; "b.example"] false []
                   [HttpHead "http://a.example/"; HttpHead "https://b.example/";
                    SslConnect "a.example" 443; UtcNow; SslConnect "b.example" 443; UtcNow]
                   _ _) Samples.plain_args _ 4 eq_refl Hmain).
  vm_compute. reflexivity.
Defined.

(** C9. What the code does with a long failure.  The first entry of
    [servers] cannot be reached and [requests] reports it with its usual
    message.  The run has one failure, whose text is longer than 160
    characters; in CI mode [__main__] sends two messages, the header and the
    failure itself, whole: the second message is longer than 160
    characters. *)
Theorem C9_long_failure_sent_whole :
  exists (t1 t' : trace) (failure : string),
    check_sites Samples.w_unresolved false [] = (t1, Ok [failure])
    /\ (160 < String.length (String.concat "" [failure]))%nat
    /\ main Samples.w_unresolved Samples.ci_args [] = (t', Ok 1)
    /\ sms_bodies t' = ["Sitecheck 1 Errors:"; failure]
    /\ ~ Forall (fun m => (String.length m <= 160)%nat) (sms_bodies t').
Proof.
  eexists. eexists. eexists.
  split; [vm_compute; reflexivity |].
  split; [vm_compute; lia |].
  split; [vm_compute; reflexivity |].
  split; [reflexivity |].
  cbn [sms_bodies app].
  intros H. inversion H as [| m1 l1 _ H1]; subst.
  inversion H1 as [| m2 l2 H2 _]; subst.
  vm_compute in H2. lia.
Qed.

(** ** What a computation adds to the trace *)

Lemma extends_refl (P : event -> Prop) (t : trace) : extends P t t.
Proof. exists []. rewrite app_nil_r. split; [reflexivity | constructor]. Qed.

Lemma extends_trans (P : event -> Prop) (t1 t2 t3 : trace) :
  extends P t1 t2 -> extends P t2 t3 -> extends P t1 t3.
Proof.
  intros (e1 & -> & H1) (e2 & -> & H2). exists (e1 ++ e2).
  rewrite app_assoc. split; [reflexivity | apply Forall_app; auto].
Qed.

Lemma extends_weaken (P Q : event -> Prop) (t t' : trace) :
  (forall ev, P ev -> Q ev) -> extends P t t' -> extends Q t t'.
Proof.
  intros HPQ (evs & -> & H). exists evs. split; [reflexivity |].
  eapply Forall_impl; eauto.
Qed.

Lemma omap_none {B : Type} (f : event -> option B) (P : event -> Prop) (t t' : trace) :
  (forall ev, P ev -> f ev = None) -> extends P t t' -> omap f t' = omap f t.
Proof.
  intros Hf (evs & -> & H). rewrite omap_app.
  assert (Hnil : omap f evs = []).
  { induction H as [| ev evs Hev _ IH]; [reflexivity |].
    cbn. rewrite (Hf _ Hev). exact IH. }
  rewrite Hnil, app_nil_r. reflexivity.
Qed.

Lemma sms_bodies_omap (t : trace) : sms_bodies t = omap sms_body t.
Proof.
  induction t as [| ev t IH]; [reflexivity |].
  destruct ev; cbn; rewrite IH; reflexivity.
Qed.

Lemma emits_ret {A : Type} (P : event -> Prop) (a : A) : emits P (mret a).
Proof. intros t t' r H. injection H as <- _. apply extends_refl. Qed.

Lemma emits_raise {A : Type} (P : event -> Prop) (e : exn) : emits P (@raise A e).
Proof. intros t t' r H. injection H as <- _. apply extends_refl. Qed.

Lemma emits_lift {A : Type} (P : event -> Prop) (x : result A) : emits P (lift x).
Proof. intros t t' r H. injection H as <- _. apply extends_refl. Qed.

Lemma emits_call {A : Type} (P : event -> Prop) (ev : event) (oracle : trace -> result A) :
  P ev -> emits P (call ev oracle).
Proof.
  intros Hev t t' r H. injection H as <- _.
  exists [ev]. split; [reflexivity | repeat constructor; exact Hev].
Qed.

Lemma emits_bind {A B : Type} (P : event -> Prop) (m : M A) (k : A -> M B) :
  emits P m -> (forall a, emits P (k a)) -> emits P (m ≫= k).
Proof.
  intros Hm Hk t t' r. rewrite bind_run.
  destruct (m t) as [t1 [a | e]] eqn:Hmt; intros H.
  - eapply extends_trans; [eapply Hm; eauto | eapply Hk; eauto].
  - injection H as <- _. eapply Hm; eauto.
Qed.

Lemma emits_when (P : event -> Prop) (b : bool) (m : M unit) :
  (b = true -> emits P m) -> emits P (when b m).
Proof. destruct b; intros H; [auto | apply emits_ret]. Qed.

Lemma emits_try {A : Type} (P : event -> Prop) (m : M A) (h : string -> M A) :
  emits P m -> (forall e, emits P (h e)) -> emits P (try_except_RequestException m h).
Proof.
  intros Hm Hh t t' r. unfold try_except_RequestException.
  destruct (m t) as [t1 [a | e]] eqn:Hmt.
  - intros H. injection H as <- _. eapply Hm; eauto.
  - destruct e; intros H;
      try (injection H as <- _; eapply Hm; eauto).
    eapply extends_trans; [eapply Hm; eauto | eapply Hh; eauto].
Qed.

Lemma emits_getitem (P : event -> Prop) (d : gmap string string) (key : string) :
  emits P (getitem d key).
Proof. unfold getitem. destruct (d !! key); [apply emits_ret | apply emits_raise]. Qed.

Lemma emits_server_getitem (P : event -> Prop) (field : option string) (key : string) :
  emits P (server_getitem field key).
Proof. destruct field; [apply emits_ret | apply emits_raise]. Qed.

Lemma emits_for_each {A : Type} (P : event -> Prop) (l : list A) (body : A -> M unit) :
  (forall x, emits P (body x)) -> emits P (for_each l body).
Proof.
  intros Hb. induction l as [| x l IH]; cbn [for_each].
  - apply emits_ret.
  - apply emits_bind; [apply Hb | intros _; exact IH].
Qed.

Create HintDb emits discriminated.
#[export] Hint Resolve emits_ret emits_raise emits_lift emits_getitem
  emits_server_getitem : emits.

Ltac emits_step :=
  repeat first
    [ solve [auto with emits]
    | apply emits_bind; [| intros ?]
    | apply emits_when; intros ?
    | apply emits_try; [| intros ?]
    | apply emits_for_each; intros ?
    | apply emits_call
    | match goal with
      | |- emits _ (if ?b then _ else _) => destruct b
      | |- emits _ (match ?x with _ => _ end) => destruct x
      | |- emits _ (let '(_, _) := ?x in _) => destruct x
      end ].

Ltac event_class :=
  match goal with
  | H : _ = true |- _ => rewrite H
  | _ => idtac
  end;
  try reflexivity;
  match goal with
  | |- check_event ?v _ = true => destruct v; reflexivity
  end.

Lemma emits_ssl_valid_time_remaining (w : world) (hostname : string) :
  emits (fun ev => probe_event ev = true) (ssl_valid_time_remaining w hostname).
Proof.
  unfold ssl_valid_time_remaining, ssl_expiry_datetime. emits_step; reflexivity.
Qed.

Lemma emits_check_response (w : world) (s : server) (r : response)
    (errors : list string) :
  emits (fun ev => probe_event ev = true) (check_response w s r errors).
Proof.
  unfold check_response, headers_getitem. emits_step; reflexivity.
Qed.

Lemma probe_is_check_event (verbose' : bool) (ev : event) :
  probe_event ev = true -> check_event verbose' ev = true.
Proof. unfold check_event. intros ->. reflexivity. Qed.

Lemma emits_server_body (w : world) (verbose' : bool) (s : server)
    (errors : list string) :
  emits (fun ev => check_event verbose' ev = true) (server_body w verbose' s errors).
Proof.
  unfold server_body. emits_step; try event_class.
  intros t t' r' H. eapply extends_weaken; [apply probe_is_check_event |].
  eapply emits_check_response. exact H.
Qed.

Lemma emits_for_servers (w : world) (verbose' : bool) (servers : list server)
    (errors : list string) :
  emits (fun ev => check_event verbose' ev = true) (for_servers w verbose' servers errors).
Proof.
  revert errors. induction servers as [| s rest IH]; intros errors; cbn [for_servers].
  - apply emits_ret.
  - apply emits_bind; [apply emits_server_body |].
    intros [[] errors']; [apply IH | apply emits_ret].
Qed.

Lemma emits_ssl_host_body (w : world) (verbose' : bool) (h : string)
    (errors : list string) :
  emits (fun ev => check_event verbose' ev = true) (ssl_host_body w verbose' h errors).
Proof.
  unfold ssl_host_body. emits_step; event_class.
Qed.

Lemma emits_for_ssl_hosts (w : world) (verbose' : bool) (hosts : list string)
    (errors : list string) :
  emits (fun ev => check_event verbose' ev = true) (for_ssl_hosts w verbose' hosts errors).
Proof.
  revert errors. induction hosts as [| h rest IH]; intros errors; cbn [for_ssl_hosts].
  - apply emits_ret.
  - apply emits_bind; [apply emits_ssl_host_body | intros errors'; apply IH].
Qed.

Lemma emits_check_sites_on (w : world) (servers : list server) (hosts : list string)
    (verbose' : bool) :
  emits (fun ev => check_event verbose' ev = true)
        (check_sites_on w servers hosts verbose').
Proof.
  unfold check_sites_on.
  apply emits_bind; [apply emits_for_servers | intros errors0].
  apply emits_bind; [apply emits_for_ssl_hosts | intros errors1].
  emits_step; event_class.
Qed.

(** ** More on the loop body of the site loop *)

(** X1. A HEAD answer with another status than the expected one (lines 84-86):
    the body appends exactly one failure naming the expected and the
    received status, makes no further request, and the loop goes on with the
    next entry.  This holds for every expected status, also 200, 301 and
    302: neither the [Location] header nor the page is looked at. *)
Theorem status_mismatch_one_failure (w : world) (verbose' : bool) (s : server)
    (errors : list string) (t : trace) (r : response) :
  requests_head w (announced verbose' ("checking " +:+ url s) t) (url s) = Ok r ->
  status_code r <> code s ->
  server_body w verbose' s errors t
  = (announced verbose' ("checking " +:+ url s) t ++ [HttpHead (url s)],
     Ok (Next, errors ++ ["Fail: " +:+ url s +:+ " expected response code "
                            +:+ pretty (code s) +:+ " received "
                            +:+ pretty (status_code r)])).
Proof.
  intros Hhead Hne. rewrite server_body_run. cbn zeta. rewrite Hhead.
  unfold check_response.
  destruct (Z.eqb_spec (status_code r) (code s)) as [Heq | _]; [contradiction |].
  reflexivity.
Qed.

(** X2. An expected status other than 200, 301 and 302 that the HEAD answer
    matches (lines 84-100): nothing is appended and no further request is
    made. *)
Theorem other_status_match_is_healthy (w : world) (verbose' : bool) (s : server)
    (errors : list string) (t : trace) (r : response) :
  requests_head w (announced verbose' ("checking " +:+ url s) t) (url s) = Ok r ->
  status_code r = code s ->
  code s <> 200 -> code s <> 301 -> code s <> 302 ->
  server_body w verbose' s errors t
  = (announced verbose' ("checking " +:+ url s) t ++ [HttpHead (url s)],
     Ok (Next, errors)).
Proof.
  intros Hhead Hst H200 H301 H302. head_answered Hhead Hst.
  destruct (Z.eqb_spec (code s) 301); [contradiction |].
  destruct (Z.eqb_spec (code s) 302); [contradiction |].
  destruct (Z.eqb_spec (code s) 200); [contradiction |].
  reflexivity.
Qed.

(** X3. The GET request of line 93 is outside the [try]: when it raises, also a
    [RequestException], nothing catches the exception.  [check_sites]
    returns no list and [__main__] ends with the exception. *)
Theorem get_failure_is_fatal (w : world) (a : args) (done rest : list server)
    (s : server) (hosts : list string) (t t1 : trace) (errors1 : list string)
    (r : response) (e : exn) :
  passes w (verbose a) done [] t errors1 t1 ->
  code s = 200 ->
  requests_head w (announced (verbose a) ("checking " +:+ url s) t1) (url s) = Ok r ->
  status_code r = 200 ->
  requests_get w (announced (verbose a) ("checking " +:+ url s) t1 ++ [HttpHead (url s)])
    (url s) = Raise e ->
  let t2 := announced (verbose a) ("checking " +:+ url s) t1
              ++ [HttpHead (url s)] ++ [HttpGet (url s)] in
  check_sites_on w (done ++ s :: rest) hosts (verbose a) t = (t2, Raise e)
  /\ main_on w (done ++ s :: rest) hosts a t = (t2, Raise e).
Proof.
  intros Hdone Hc Hhead Hst Hget t2.
  assert (Hcheck : check_sites_on w (done ++ s :: rest) hosts (verbose a) t
                   = (t2, Raise e)).
  { apply check_sites_on_servers_raise.
    rewrite (for_servers_passes _ _ _ _ _ _ _ _ Hdone).
    apply for_servers_body_raise.
    rewrite server_body_run. cbn zeta. rewrite Hhead.
    unfold check_response. rewrite Hst, Hc.
    change (negb (200 =? 200)) with false.
    change ((200 =? 301) || (200 =? 302)) with false. change (200 =? 200) with true.
    cbn match. run_M. rewrite Hget. subst t2. rewrite app_assoc. reflexivity. }
  split; [exact Hcheck |].
  apply main_on_check_raise. exact Hcheck.
Qed.

(** X4. An entry expecting 301 or 302 without the key [redirect] (line 89): once
    the status matches and the [Location] header is there, the body raises
    [KeyError] for the key; nothing is appended. *)
Theorem missing_redirect_key (w : world) (verbose' : bool) (s : server)
    (errors : list string) (t : trace) (r : response) (location : string) :
  code s = 301 \/ code s = 302 ->
  requests_head w (announced verbose' ("checking " +:+ url s) t) (url s) = Ok r ->
  status_code r = code s ->
  headers r !! lower "Location" = Some location ->
  redirect s = None ->
  server_body w verbose' s errors t
  = (announced verbose' ("checking " +:+ url s) t ++ [HttpHead (url s)],
     Raise (KeyError "redirect")).
Proof.
  intros Hc Hhead Hst Hloc Hred.
  assert (Hbranch : (code s =? 301) || (code s =? 302) = true).
  { destruct Hc as [-> | ->]; reflexivity. }
  head_answered Hhead Hst. rewrite Hbranch.
  unfold headers_getitem, getitem, server_getitem. rewrite Hloc, Hred. reflexivity.
Qed.

(** X5. An entry expecting 200 without the key [contents] (line 97): the key is
    read only after the GET request was made and answered 200; the body
    then raises [KeyError] for the key, before the page is decoded or
    searched. *)
Theorem missing_contents_key (w : world) (verbose' : bool) (s : server)
    (errors : list string) (t : trace) (r r2 : response) :
  code s = 200 ->
  requests_head w (announced verbose' ("checking " +:+ url s) t) (url s) = Ok r ->
  status_code r = 200 ->
  requests_get w (announced verbose' ("checking " +:+ url s) t ++ [HttpHead (url s)])
    (url s) = Ok r2 ->
  status_code r2 = 200 ->
  contents s = None ->
  server_body w verbose' s errors t
  = (announced verbose' ("checking " +:+ url s) t
       ++ [HttpHead (url s)] ++ [HttpGet (url s)],
     Raise (KeyError "contents")).
Proof.
  intros Hc Hhead Hst Hget Hst2 Hcont.
  rewrite server_body_run. cbn zeta. rewrite Hhead.
  unfold check_response. rewrite Hst, Hc.
  change (negb (200 =? 200)) with false.
  change ((200 =? 301) || (200 =? 302)) with false. change (200 =? 200) with true.
  cbn match. unfold server_getitem. rewrite Hcont. run_M.
  rewrite Hget, Hst2. change (negb (200 =? 200)) with false. cbn match.
  rewrite app_assoc. reflexivity.
Qed.

(** What [check_response] adds to the trace. *)
Lemma check_response_trace (w : world) (s : server) (r : response)
    (errors : list string) (t t' : trace) (res : result (flow * list string)) :
  check_response w s r errors t = (t', res) ->
  t' = t
  \/ (t' = t ++ [HttpGet (url s)] /\ code s = 200 /\ status_code r = 200).
Proof.
  unfold check_response, headers_getitem, getitem, server_getitem. run_M.
  intros H.
  destruct (Z.eqb_spec (status_code r) (code s)) as [Heq | Hne]; cbn [negb] in H;
    [| injection H as <- _; left; reflexivity].
  destruct ((status_code r =? 301) || (status_code r =? 302)).
  { repeat case_match; simplify_eq; left; reflexivity. }
  destruct (Z.eqb_spec (status_code r) 200) as [H200 | _];
    [| injection H as <- _; left; reflexivity].
  right. split; [| split; [congruence | exact H200]].
  repeat case_match; simplify_eq; reflexivity.
Qed.

Lemma server_body_requests (w : world) (verbose' : bool) (s : server)
    (errors : list string) (t t' : trace) (res : result (flow * list string)) :
  server_body w verbose' s errors t = (t', res) ->
  http_heads t' = http_heads t ++ [url s]
  /\ (http_gets t' = http_gets t
      \/ (http_gets t' = http_gets t ++ [url s] /\ code s = 200
          /\ exists r, requests_head w (announced verbose' ("checking " +:+ url s) t)
                         (url s) = Ok r
                       /\ status_code r = 200)).
Proof.
  rewrite server_body_run. cbn zeta.
  assert (Hann : forall f : event -> option string, f (Print ("checking " +:+ url s)) = None ->
            omap f (announced verbose' ("checking " +:+ url s) t) = omap f t).
  { intros f Hf. unfold announced. destruct verbose'; [| reflexivity].
    rewrite omap_app. cbn. rewrite Hf, app_nil_r. reflexivity. }
  unfold http_heads, http_gets.
  destruct (requests_head w _ (url s)) as [r | e] eqn:Hhead.
  - intros H. destruct (check_response_trace _ _ _ _ _ _ _ H) as [-> | (-> & Hc & Hst)].
    + rewrite !omap_app, !Hann by reflexivity. cbn. rewrite ?app_nil_r.
      split; [reflexivity | left; reflexivity].
    + rewrite !omap_app, !Hann by reflexivity. cbn. rewrite ?app_nil_r.
      split; [reflexivity |]. right. eauto.
  - intros H.
    assert (Ht : t' = announced verbose' ("checking " +:+ url s) t ++ [HttpHead (url s)]).
    { destruct e; injection H as <- _; reflexivity. }
    rewrite Ht, !omap_app, !Hann by reflexivity. cbn. rewrite ?app_nil_r.
    split; [reflexivity | left; reflexivity].
Qed.

(** X6. The requests one entry costs (lines 78-100), whatever the outcome of the
    body: exactly one HEAD to the entry's URL and at most one GET, to the
    same URL; a GET is made only for an entry expecting 200 whose HEAD
    answered 200. *)
Theorem requests_of_one_entry (w : world) (verbose' : bool) (s : server)
    (errors : list string) (t t' : trace) (res : result (flow * list string)) :
  server_body w verbose' s errors t = (t', res) ->
  http_heads t' = http_heads t ++ [url s]
  /\ (http_gets t' = http_gets t
      \/ (http_gets t' = http_gets t ++ [url s] /\ code s = 200
          /\ exists r, requests_head w (announced verbose' ("checking " +:+ url s) t)
                         (url s) = Ok r
                       /\ status_code r = 200)).
Proof. apply server_body_requests. Qed.

(** ** Certificate inspection *)

(** The two ways [ssl_valid_time_remaining] ends. *)
Lemma ssl_valid_time_remaining_cases (w : world) (hostname : string) (t : trace) :
  (exists e, tls_failure w hostname t e
             /\ ssl_valid_time_remaining w hostname t
                = (t ++ [SslConnect hostname 443], Raise e))
  \/ (exists cert notAfter expires,
         ssl_connect w t hostname 443 = Ok cert
         /\ cert !! "notAfter" = Some notAfter
         /\ strptime w notAfter "%b %d %H:%M:%S %Y %Z" = Ok expires
         /\ ssl_valid_time_remaining w hostname t
            = (t ++ [SslConnect hostname 443] ++ [UtcNow],
               Ok (datetime_sub expires (utcnow w (t ++ [SslConnect hostname 443]))))).
Proof.
  destruct (ssl_connect w t hostname 443) as [cert | e] eqn:Hc.
  - destruct (cert !! "notAfter") as [notAfter |] eqn:Hk.
    + destruct (strptime w notAfter "%b %d %H:%M:%S %Y %Z") as [expires | e] eqn:Hp.
      * right. exists cert, notAfter, expires. repeat split; try assumption.
        unfold ssl_valid_time_remaining, ssl_expiry_datetime, getitem. run_M.
        rewrite Hc, Hk, Hp. rewrite <- app_assoc. reflexivity.
      * left. exists e. split; [eapply expiry_unparsable; eauto |].
        apply ssl_valid_time_remaining_fails. eapply expiry_unparsable; eauto.
    + left. exists (KeyError "notAfter"). split; [eapply expiry_missing; eauto |].
      apply ssl_valid_time_remaining_fails. eapply expiry_missing; eauto.
  - left. exists e. split; [apply connect_fails; exact Hc |].
    apply ssl_valid_time_remaining_fails. apply connect_fails. exact Hc.
Qed.

(** X7. The exceptions of [ssl_valid_time_remaining] (lines 26-47) are exactly
    the three failures of the inspection: the connection or handshake
    fails, the certificate has no [notAfter] field, or the field does not
    parse.  In each case one connection to port 443 was attempted and the
    clock was not read. *)
Theorem tls_exceptions_characterised (w : world) (hostname : string) (t t' : trace)
    (e : exn) :
  ssl_valid_time_remaining w hostname t = (t', Raise e)
  <-> t' = t ++ [SslConnect hostname 443] /\ tls_failure w hostname t e.
Proof.
  split.
  - intros H.
    destruct (ssl_valid_time_remaining_cases w hostname t)
      as [(e' & Hf & Hr) | (cert & notAfter & expires & _ & _ & _ & Hr)];
      rewrite Hr in H; [| discriminate].
    injection H as <- <-. auto.
  - intros [-> Hf]. apply ssl_valid_time_remaining_fails. exact Hf.
Qed.

(** X8. When the inspection succeeds (lines 26-47), the remaining life time is
    the expiry date of the certificate minus the UTC time read after the
    handshake: a normalised [timedelta] whose duration is that difference,
    negative when the certificate has expired.  One connection to port 443
    and one reading of the clock were made. *)
Theorem remaining_is_expiry_minus_now (w : world) (hostname : string) (t t' : trace)
    (remaining : timedelta) :
  ssl_valid_time_remaining w hostname t = (t', Ok remaining) ->
  exists cert notAfter expires,
    ssl_connect w t hostname 443 = Ok cert
    /\ cert !! "notAfter" = Some notAfter
    /\ strptime w notAfter "%b %d %H:%M:%S %Y %Z" = Ok expires
    /\ t' = t ++ [SslConnect hostname 443; UtcNow]
    /\ total_us remaining = expires - utcnow w (t ++ [SslConnect hostname 443])
    /\ normalised remaining.
Proof.
  intros H.
  destruct (ssl_valid_time_remaining_cases w hostname t)
    as [(e' & Hf & Hr) | (cert & notAfter & expires & Hc & Hk & Hp & Hr)];
    rewrite Hr in H; [discriminate |].
  injection H as <- <-.
  exists cert, notAfter, expires.
  split; [exact Hc |]. split; [exact Hk |]. split; [exact Hp |].
  split; [reflexivity |].
  split; [apply total_us_of_us | apply timedelta_of_us_normalised].
Qed.

(** ** The requests of a whole run *)

Lemma emits_check_response_site (w : world) (verbose' : bool) (s : server)
    (r : response) (errors : list string) :
  emits (fun ev => site_event verbose' ev = true) (check_response w s r errors).
Proof.
  unfold check_response, headers_getitem. emits_step; reflexivity.
Qed.

Lemma emits_server_body_site (w : world) (verbose' : bool) (s : server)
    (errors : list string) :
  emits (fun ev => site_event verbose' ev = true) (server_body w verbose' s errors).
Proof.
  unfold server_body. emits_step;
    try (apply emits_check_response_site);
    reflexivity.
Qed.

Lemma emits_for_servers_site (w : world) (verbose' : bool) (servers : list server)
    (errors : list string) :
  emits (fun ev => site_event verbose' ev = true) (for_servers w verbose' servers errors).
Proof.
  revert errors. induction servers as [| s rest IH]; intros errors; cbn [for_servers].
  - apply emits_ret.
  - apply emits_bind; [apply emits_server_body_site |].
    intros [[] errors']; [apply IH | apply emits_ret].
Qed.

Lemma emits_ssl_host_body_tls (w : world) (verbose' : bool) (h : string)
    (errors : list string) :
  emits (fun ev => tls_event verbose' ev = true) (ssl_host_body w verbose' h errors).
Proof.
  unfold ssl_host_body. emits_step; reflexivity.
Qed.

Lemma emits_for_ssl_hosts_tls (w : world) (verbose' : bool) (hosts : list string)
    (errors : list string) :
  emits (fun ev => tls_event verbose' ev = true) (for_ssl_hosts w verbose' hosts errors).
Proof.
  revert errors. induction hosts as [| h rest IH]; intros errors; cbn [for_ssl_hosts].
  - apply emits_ret.
  - apply emits_bind; [apply emits_ssl_host_body_tls | intros errors'; apply IH].
Qed.

Lemma for_servers_heads (w : world) (verbose' : bool) (servers : list server)
    (errors : list string) (t t' : trace) (res : result (list string)) :
  for_servers w verbose' servers errors t = (t', res) ->
  exists k, (k <= length servers)%nat
            /\ http_heads t' = http_heads t ++ (url <$> take k servers).
Proof.
  revert errors t. induction servers as [| s rest IH]; intros errors t H.
  - injection H as <- _. exists 0%nat. cbn. rewrite app_nil_r. split; [lia | reflexivity].
  - cbn [for_servers] in H. rewrite bind_run in H.
    destruct (server_body w verbose' s errors t) as [t1 res1] eqn:Hb.
    destruct (server_body_requests _ _ _ _ _ _ _ Hb) as [Hh _].
    assert (Hone : exists k, (k <= length (s :: rest))%nat
                     /\ http_heads t1 = http_heads t ++ (url <$> take k (s :: rest))).
    { exists 1%nat. cbn. split; [lia | exact Hh]. }
    destruct res1 as [[[] errors1] | e].
    + destruct (IH _ _ H) as (k & Hk & Hheads).
      exists (S k). cbn. split; [lia |].
      rewrite Hheads, Hh, <- app_assoc. reflexivity.
    + injection H as <- _. exact Hone.
    + injection H as <- _. exact Hone.
Qed.

Lemma ssl_host_body_connects (w : world) (verbose' : bool) (h : string)
    (errors : list string) (t t' : trace) (res : result (list string)) :
  ssl_host_body w verbose' h errors t = (t', res) ->
  tls_connects t' = tls_connects t ++ [(h, 443)].
Proof.
  assert (Hann : tls_connects (announced verbose' ("checking SSL " +:+ h) t)
                 = tls_connects t).
  { unfold announced, tls_connects. destruct verbose'; [| reflexivity].
    rewrite omap_app. cbn. rewrite app_nil_r. reflexivity. }
  destruct (ssl_valid_time_remaining_cases w h
              (announced verbose' ("checking SSL " +:+ h) t))
    as [(e & _ & Hr) | (cert & notAfter & expires & _ & _ & _ & Hr)].
  - rewrite (ssl_host_body_raise _ _ _ _ _ _ _ Hr).
    intros H. injection H as <- _.
    unfold tls_connects in *. rewrite omap_app, Hann. reflexivity.
  - rewrite (ssl_host_body_ok _ _ _ _ _ _ _ Hr).
    intros H. injection H as <- _.
    unfold tls_connects in *. rewrite !omap_app, Hann. cbn.
    rewrite ?app_nil_r. reflexivity.
Qed.

Lemma for_ssl_hosts_connects (w : world) (verbose' : bool) (hosts : list string)
    (errors : list string) (t t' : trace) (res : result (list string)) :
  for_ssl_hosts w verbose' hosts errors t = (t', res) ->
  exists j, (j <= length hosts)%nat
            /\ tls_connects t' = tls_connects t ++ ((fun h => (h, 443)) <$> take j hosts)
            /\ (forall errors', res = Ok errors' -> j = length hosts).
Proof.
  revert errors t. induction hosts as [| h rest IH]; intros errors t H.
  - injection H as <- _. exists 0%nat. cbn. rewrite app_nil_r. auto.
  - cbn [for_ssl_hosts] in H. rewrite bind_run in H.
    destruct (ssl_host_body w verbose' h errors t) as [t1 res1] eqn:Hb.
    pose proof (ssl_host_body_connects _ _ _ _ _ _ _ Hb) as Hc.
    destruct res1 as [errors1 | e].
    + destruct (IH _ _ H) as (j & Hj & Hconn & Hall).
      exists (S j). cbn. split; [lia |]. split.
      * rewrite Hconn, Hc, <- app_assoc. reflexivity.
      * intros errors' Hok. rewrite (Hall _ Hok). reflexivity.
    + injection H as <- <-. exists 1%nat. cbn. split; [lia |].
      split; [exact Hc | discriminate].
Qed.

Lemma site_event_frames (verbose' : bool) (ev : event) :
  site_event verbose' ev = true ->
  tls_connect ev = None /\ sms_body ev = None /\ slack_text ev = None /\ s3_call ev = None.
Proof. destruct ev; cbn; intros H; try discriminate; auto. Qed.

Lemma tls_event_frames (verbose' : bool) (ev : event) :
  tls_event verbose' ev = true ->
  head_url ev = None /\ get_url ev = None
  /\ sms_body ev = None /\ slack_text ev = None /\ s3_call ev = None.
Proof. destruct ev; cbn; intros H; try discriminate; auto 6. Qed.

Lemma print_frames (ev : event) :
  print_event ev = true ->
  head_url ev = None /\ get_url ev = None /\ tls_connect ev = None
  /\ sms_body ev = None /\ slack_text ev = None /\ s3_call ev = None.
Proof. destruct ev; cbn; intros H; try discriminate; auto 7. Qed.

(** What the summary of lines 116-119 adds: progress lines only. *)
Lemma check_sites_on_run (w : world) (servers : list server) (hosts : list string)
    (verbose' : bool) (t : trace) :
  check_sites_on w servers hosts verbose' t =
  match for_servers w verbose' servers [] t with
  | (t0, Raise e) => (t0, Raise e)
  | (t0, Ok errors0) =>
      match for_ssl_hosts w verbose' hosts errors0 t0 with
      | (t1, Raise e) => (t1, Raise e)
      | (t1, Ok errors) =>
          (if verbose' then
             (t1 ++ [Print ("Done. " +:+ pretty (len servers) +:+ " server and "
                              +:+ pretty (len hosts) +:+ " SSL certs checks; found "
                              +:+ pretty (len errors) +:+ " error(s)")])
               ++ [Print (esc +:+ "[91m" +:+ String.concat newline errors
                            +:+ esc +:+ "[0m")]
           else t1,
           Ok errors)
      end
  end.
Proof.
  unfold check_sites_on. rewrite bind_run.
  destruct (for_servers w verbose' servers [] t) as [t0 [errors0 | e]]; [| reflexivity].
  rewrite bind_run.
  destruct (for_ssl_hosts w verbose' hosts errors0 t0) as [t1 [errors | e]];
    [| reflexivity].
  destruct verbose'; reflexivity.
Qed.

Lemma summary_frames {B : Type} (f : event -> option B) (verbose' : bool)
    (t : trace) (l1 l2 : string) :
  (forall line, f (Print line) = None) ->
  omap f (if verbose' then (t ++ [Print l1]) ++ [Print l2] else t) = omap f t.
Proof.
  intros Hf. destruct verbose'; [| reflexivity].
  rewrite !omap_app. cbn. rewrite !Hf, !app_nil_r. reflexivity.
Qed.

(** X9. The requests of a run (lines 74-114), whatever its outcome: the HEAD
    requests go to the URLs of an initial part of the table [servers], one
    each and in table order; the TLS connections go to an initial part of
    [ssl_hosts], one each, in table order and all to port 443; and when
    [check_sites] returns, every host of [ssl_hosts] was connected to. *)
Theorem requests_in_table_order (w : world) (servers : list server)
    (hosts : list string) (verbose' : bool) (t t' : trace)
    (res : result (list string)) :
  check_sites_on w servers hosts verbose' t = (t', res) ->
  exists k j,
    (k <= length servers)%nat /\ (j <= length hosts)%nat
    /\ http_heads t' = http_heads t ++ (url <$> take k servers)
    /\ tls_connects t' = tls_connects t ++ ((fun h => (h, 443)) <$> take j hosts)
    /\ (forall errors, res = Ok errors -> j = length hosts).
Proof.
  rewrite check_sites_on_run.
  destruct (for_servers w verbose' servers [] t) as [t0 res0] eqn:Hs.
  destruct (for_servers_heads _ _ _ _ _ _ _ Hs) as (k & Hk & Hheads).
  assert (Htls0 : tls_connects t0 = tls_connects t).
  { eapply omap_none; [| eapply emits_for_servers_site; exact Hs].
    intros ev Hev. apply (site_event_frames _ _ Hev). }
  destruct res0 as [errors0 | e].
  - destruct (for_ssl_hosts w verbose' hosts errors0 t0) as [t1 res1] eqn:Hh.
    destruct (for_ssl_hosts_connects _ _ _ _ _ _ _ Hh) as (j & Hj & Hconn & Hall).
    assert (Hheads1 : http_heads t1 = http_heads t0).
    { eapply omap_none; [| eapply emits_for_ssl_hosts_tls; exact Hh].
      intros ev Hev. apply (tls_event_frames _ _ Hev). }
    destruct res1 as [errors | e]; intros H; injection H as <- <-.
    + exists k, j. unfold http_heads, tls_connects in *.
      rewrite !summary_frames by reflexivity.
      rewrite Hheads1, Hheads, Hconn, Htls0.
      repeat split; auto; intros errors' _; eapply Hall; reflexivity.
    + exists k, j. rewrite Hheads1, Hheads, Hconn, Htls0.
      repeat split; auto; discriminate.
  - intros H. injection H as <- <-. exists k, 0%nat.
    rewrite Hheads, Htls0. cbn. rewrite app_nil_r.
    repeat split; auto; try lia; discriminate.
Qed.

Lemma check_event_frames (verbose' : bool) (ev : event) :
  check_event verbose' ev = true ->
  sms_body ev = None /\ slack_text ev = None /\ s3_call ev = None.
Proof. destruct ev, verbose'; cbn; intros H; try discriminate; auto. Qed.

(** X10. [check_sites] (lines 50-121) only probes: whatever its outcome, all it
    adds to the trace are HEAD and GET requests, TLS connections and
    readings of the clock, and progress lines when [verbose] is set.  It
    sends no SMS, posts nothing to Slack and does not touch the S3 store;
    without [verbose] it prints nothing. *)
Theorem check_sites_only_probes (w : world) (servers : list server)
    (hosts : list string) (verbose' : bool) (t t' : trace)
    (res : result (list string)) :
  check_sites_on w servers hosts verbose' t = (t', res) ->
  (exists evs, t' = t ++ evs
               /\ Forall (fun ev => probe_event ev = true
                                    \/ (verbose' = true /\ print_event ev = true)) evs)
  /\ sms_bodies t' = sms_bodies t
  /\ slack_texts t' = slack_texts t
  /\ s3_calls t' = s3_calls t.
Proof.
  intros H. pose proof (emits_check_sites_on _ _ _ _ _ _ _ H) as He.
  split.
  - destruct He as (evs & -> & Hall). exists evs. split; [reflexivity |].
    eapply Forall_impl; [exact Hall |].
    intros ev Hev. unfold check_event in Hev.
    destruct (probe_event ev); [left; reflexivity | right].
    destruct verbose'; [| discriminate]. auto.
  - rewrite !sms_bodies_omap. unfold slack_texts, s3_calls.
    repeat split; (eapply omap_none; [| exact He]);
      intros ev Hev; apply (check_event_frames _ _ Hev).
Qed.

(** X11. After the [break] of line 82 the TLS loop still runs (lines 102-114):
    when a HEAD request raises a [RequestException] and the certificate
    inspection of every host succeeds, [check_sites] returns the failures
    of the entries before the unreachable one, the failure of the
    unreachable one, and then what each host of [ssl_hosts] contributes, in
    table order. *)
Theorem tls_hosts_inspected_after_break (w : world) (verbose' : bool)
    (done rest : list server) (s : server) (hosts : list string) (t t1 t2 : trace)
    (errors1 errors : list string) (e : string) :
  passes w verbose' done [] t errors1 t1 ->
  requests_head w (announced verbose' ("checking " +:+ url s) t1) (url s)
    = Raise (RequestException e) ->
  for_ssl_hosts w verbose' hosts
    (errors1 ++ ["Fail: " +:+ url s +:+ " exception " +:+ e])
    (announced verbose' ("checking " +:+ url s) t1 ++ [HttpHead (url s)])
    = (t2, Ok errors) ->
  snd (check_sites_on w (done ++ s :: rest) hosts verbose' t) = Ok errors
  /\ exists per_host : list (list string),
       errors = errors1 ++ ["Fail: " +:+ url s +:+ " exception " +:+ e] ++ concat per_host
       /\ Forall2 (tls_emits w verbose') hosts per_host.
Proof.
  intros Hdone Hhead Htls. split.
  - rewrite check_sites_on_run.
    rewrite (for_servers_passes _ _ _ _ _ _ _ _ Hdone).
    assert (Hbody : server_body w verbose' s errors1 t1
                    = (announced verbose' ("checking " +:+ url s) t1 ++ [HttpHead (url s)],
                       Ok (Break, errors1 ++ ["Fail: " +:+ url s +:+ " exception " +:+ e]))).
    { rewrite server_body_run. cbn zeta. rewrite Hhead. reflexivity. }
    rewrite (for_servers_body_break _ _ _ _ _ _ _ _ Hbody), Htls. reflexivity.
  - destruct (for_ssl_hosts_order _ _ _ _ _ _ _ Htls) as (per_host & -> & Hall).
    exists per_host. rewrite <- app_assoc. auto.
Qed.

Lemma concat_short {A B : Type} (P : A -> list B -> Prop) (xs : list A)
    (ls : list (list B)) :
  (forall x l, P x l -> (length l <= 1)%nat) ->
  Forall2 P xs ls -> (length (concat ls) <= length ls)%nat.
Proof.
  intros HP H. induction H as [| x l xs ls Hxl _ IH]; [cbn; lia |].
  cbn. rewrite length_app. specialize (HP _ _ Hxl). lia.
Qed.

(** X12. The exit status is bounded by the size of the tables (lines 72-121 and
    156-157): every entry of [servers] and every host of [ssl_hosts]
    contributes at most one failure, so the status [__main__] hands to
    [sys.exit] lies between 0 and the number of entries plus the number of
    hosts. *)
Theorem exit_status_bounded (w : world) (servers : list server) (hosts : list string)
    (a : args) (t t' : trace) (rc : Z) :
  main_on w servers hosts a t = (t', Ok rc) ->
  0 <= rc <= len servers + len hosts.
Proof.
  intros Hmain.
  destruct (main_on_inv _ _ _ _ _ _ _ Hmain) as (t1 & errors & Hc & ->).
  destruct (check_sites_on_inv _ _ _ _ _ _ _ Hc) as (t0 & t2 & errors0 & Hs & Hh).
  destruct (for_servers_order _ _ _ _ _ _ _ Hs) as (per_site & -> & Hn & Hsites).
  destruct (for_ssl_hosts_order _ _ _ _ _ _ _ Hh) as (per_host & -> & Hhosts).
  pose proof (concat_short _ _ _ (fun s l H => proj1 H) Hsites) as H1.
  pose proof (concat_short _ _ _ (fun h l H => proj1 H) Hhosts) as H2.
  pose proof (Forall2_length _ _ _ Hhosts) as H3.
  unfold len. cbn [app]. rewrite length_app. lia.
Qed.

(** ** The CI part *)

Ltac run_M_in H :=
  unfold mbind, M_bind, mret, M_ret, raise, lift, call in H; cbn beta iota in H.

Lemma ci_mode_phases (w : world) (a : args) (errors : list string) (rc : Z) (t : trace) :
  ci_mode w a errors rc t =
  (aws_id ← environ_getitem w "AWS_ACCESS_KEY_ID";
   aws_secret ← environ_getitem w "AWS_SECRET_ACCESS_KEY";
   bucket ← environ_getitem w "S3DATA_BUCKET";
   last ← ci_store w a errors rc;
   if should_notify last errors then ci_notify w a (msg rc errors) else mret tt) t.
Proof.
  unfold ci_mode, ci_store, ci_notify, environ_getitem, getitem, when, print. run_M.
  repeat (case_match; simplify_eq); reflexivity.
Qed.

Lemma send_sms_messages_cons (w : world) (sid token from_number to_number m : string)
    (rest : list string) (verbose' : bool) (t : trace) :
  send_sms_messages w sid token from_number to_number (m :: rest) verbose' t =
  match twilio_create w t sid token m from_number to_number with
  | Ok message_sid =>
      send_sms_messages w sid token from_number to_number rest verbose'
        (announced verbose' message_sid (t ++ [TwilioCreate m from_number to_number]))
  | Raise e => (t ++ [TwilioCreate m from_number to_number], Raise e)
  end.
Proof.
  unfold send_sms_messages. cbn [for_each]. rewrite !bind_run. unfold call at 1.
  destruct (twilio_create w t sid token m from_number to_number); [| reflexivity].
  rewrite when_print_run. reflexivity.
Qed.

Lemma send_slack_messages_cons (w : world) (hook m : string) (rest : list string)
    (verbose' : bool) (t : trace) :
  send_slack_messages w hook (m :: rest) verbose' t =
  match requests_post w t hook m with
  | Ok req =>
      send_slack_messages w hook rest verbose'
        (announced verbose'
           ("Response from Slack webhook: " +:+ pretty (status_code req) +:+ " "
              +:+ str_bytes w (content req))
           (t ++ [HttpPost hook m]))
  | Raise e => (t ++ [HttpPost hook m], Raise e)
  end.
Proof.
  unfold send_slack_messages. cbn [for_each]. rewrite !bind_run. unfold call at 1.
  destruct (requests_post w t hook m); [| reflexivity].
  rewrite when_print_run. reflexivity.
Qed.

Lemma omap_announced {B : Type} (f : event -> option B) (verbose' : bool)
    (line : string) (t : trace) :
  f (Print line) = None -> omap f (announced verbose' line t) = omap f t.
Proof.
  intros Hf. unfold announced. destruct verbose'; [| reflexivity].
  rewrite omap_app. cbn. rewrite Hf, app_nil_r. reflexivity.
Qed.

(** What was sent is an initial part of the batch; all of it when the
    function returns, at least the failing message when it raises. *)
Lemma send_sms_messages_sent (w : world) (sid token from_number to_number : string)
    (messages : list string) (verbose' : bool) (t t' : trace) (res : result unit) :
  send_sms_messages w sid token from_number to_number messages verbose' t = (t', res) ->
  exists k, (k <= length messages)%nat
            /\ sms_bodies t' = sms_bodies t ++ take k messages
            /\ (res = Ok tt -> k = length messages).
Proof.
  revert t. induction messages as [| m rest IH]; intros t H.
  - injection H as <- <-. exists 0%nat. cbn. rewrite app_nil_r. auto.
  - rewrite send_sms_messages_cons in H.
    destruct (twilio_create w t sid token m from_number to_number) as [message_sid | e].
    + destruct (IH _ H) as (k & Hk & Hsent & Hall).
      exists (S k). cbn. split; [lia |]. split.
      * rewrite Hsent, !sms_bodies_omap, omap_announced, omap_app by reflexivity.
        cbn. rewrite <- app_assoc. reflexivity.
      * intros Hok. rewrite (Hall Hok). reflexivity.
    + injection H as <- <-. exists 1%nat. cbn. split; [lia |]. split.
      * rewrite !sms_bodies_omap, omap_app. reflexivity.
      * discriminate.
Qed.

Lemma send_slack_messages_sent (w : world) (hook : string) (messages : list string)
    (verbose' : bool) (t t' : trace) (res : result unit) :
  send_slack_messages w hook messages verbose' t = (t', res) ->
  exists j, (j <= length messages)%nat
            /\ slack_texts t' = slack_texts t ++ take j messages
            /\ (res = Ok tt -> j = length messages).
Proof.
  unfold slack_texts. revert t. induction messages as [| m rest IH]; intros t H.
  - injection H as <- <-. exists 0%nat. cbn. rewrite app_nil_r. auto.
  - rewrite send_slack_messages_cons in H.
    destruct (requests_post w t hook m) as [req | e].
    + destruct (IH _ H) as (j & Hj & Hsent & Hall).
      exists (S j). cbn. split; [lia |]. split.
      * rewrite Hsent, omap_announced, omap_app by reflexivity.
        cbn. rewrite <- app_assoc. reflexivity.
      * intros Hok. rewrite (Hall Hok). reflexivity.
    + injection H as <- <-. exists 1%nat. cbn. split; [lia |]. split.
      * rewrite omap_app. reflexivity.
      * discriminate.
Qed.

Lemma emits_send_sms_messages (w : world) (sid token from_number to_number : string)
    (messages : list string) (verbose' : bool) :
  emits (fun ev => slack_text ev = None /\ s3_call ev = None)
        (send_sms_messages w sid token from_number to_number messages verbose').
Proof. unfold send_sms_messages, print. emits_step; split; reflexivity. Qed.

Lemma emits_send_slack_messages (w : world) (hook : string)
    (messages : list string) (verbose' : bool) :
  emits (fun ev => sms_body ev = None /\ s3_call ev = None)
        (send_slack_messages w hook messages verbose').
Proof. unfold send_slack_messages, print. emits_step; split; reflexivity. Qed.

Lemma send_sms_messages_app (w : world) (sid token from_number to_number : string)
    (sent rest : list string) (verbose' : bool) (t t1 : trace) :
  send_sms_messages w sid token from_number to_number sent verbose' t = (t1, Ok tt) ->
  send_sms_messages w sid token from_number to_number (sent ++ rest) verbose' t
  = send_sms_messages w sid token from_number to_number rest verbose' t1.
Proof.
  revert t. induction sent as [| m sent IH]; intros t H.
  - injection H as <-. reflexivity.
  - cbn [app]. rewrite send_sms_messages_cons in *.
    destruct (twilio_create w t sid token m from_number to_number); [| discriminate].
    apply IH. exact H.
Qed.

(** X15. A send that raises ends [send_sms_messages] (lines 127-132): the
    messages before it were sent, the failing one was attempted, the ones
    after it are not attempted, and the exception leaves the function. *)
Theorem sms_stops_at_first_failure (w : world) (sid token from_number to_number : string)
    (sent rest : list string) (m : string) (verbose' : bool) (t t1 : trace) (e : exn) :
  send_sms_messages w sid token from_number to_number sent verbose' t = (t1, Ok tt) ->
  twilio_create w t1 sid token m from_number to_number = Raise e ->
  send_sms_messages w sid token from_number to_number (sent ++ m :: rest) verbose' t
  = (t1 ++ [TwilioCreate m from_number to_number], Raise e)
  /\ sms_bodies (t1 ++ [TwilioCreate m from_number to_number])
     = sms_bodies t ++ sent ++ [m].
Proof.
  intros Hsent Hfail. split.
  - rewrite (send_sms_messages_app _ _ _ _ _ _ _ _ _ _ Hsent).
    rewrite send_sms_messages_cons, Hfail. reflexivity.
  - rewrite sms_bodies_app, (send_sms_messages_bodies _ _ _ _ _ _ _ _ _ Hsent).
    rewrite <- app_assoc. reflexivity.
Qed.

(** X16. [send_slack_messages] never looks at the answer of the webhook (lines
    141-144): as long as every post gets an answer, whatever its status,
    the function returns, and it has posted every message of the batch,
    once each and in order. *)
Theorem slack_posts_all_whatever_the_status (w : world) (hook : string)
    (messages : list string) (verbose' : bool) (t : trace) :
  (forall t0 m, exists req, requests_post w t0 hook m = Ok req) ->
  exists t', send_slack_messages w hook messages verbose' t = (t', Ok tt)
             /\ slack_texts t' = slack_texts t ++ messages.
Proof.
  intros Hanswer. revert t. induction messages as [| m rest IH]; intros t.
  - exists t. split; [reflexivity |]. rewrite app_nil_r. reflexivity.
  - rewrite send_slack_messages_cons.
    destruct (Hanswer t m) as [req ->].
    destruct (IH (announced verbose'
                    ("Response from Slack webhook: " +:+ pretty (status_code req) +:+ " "
                       +:+ str_bytes w (content req))
                    (t ++ [HttpPost hook m]))) as (t' & Hrun & Htexts).
    exists t'. split; [exact Hrun |].
    rewrite Htexts. unfold slack_texts.
    rewrite omap_announced, omap_app by reflexivity.
    cbn. rewrite <- app_assoc. reflexivity.
Qed.

Lemma emits_ci_store (w : world) (a : args) (errors : list string) (rc : Z) :
  emits (fun ev => store_event ev = true) (ci_store w a errors rc).
Proof. unfold ci_store, print. emits_step; reflexivity. Qed.

Lemma store_event_frames (ev : event) :
  store_event ev = true -> sms_body ev = None /\ slack_text ev = None.
Proof. destruct ev; cbn; intros H; try discriminate; auto. Qed.

Lemma ci_store_ok (w : world) (a : args) (errors : list string) (rc : Z)
    (t t' : trace) (last : option run_data) :
  ci_store w a errors rc t = (t', Ok last) ->
  exists now,
    s3_calls t' = s3_calls t
                    ++ store_calls a {| lastRun := now; version := 1;
                                        results := rc; errors := errors |}
    /\ s3_get w (t ++ (if delete a then [S3Delete "sitecheck-data"] else []))
         "sitecheck-data" = Ok last.
Proof.
  unfold ci_store, when, print, store_calls, s3_calls. intros H. run_M_in H.
  repeat (case_match; simplify_eq);
    eexists; (split; [| rewrite ?app_nil_r; eassumption]);
    rewrite !omap_app; cbn; rewrite <- ?app_assoc; cbn; rewrite ?app_nil_r; reflexivity.
Qed.

Lemma ci_notify_sent (w : world) (a : args) (batch : list string) (t t' : trace)
    (res : result unit) :
  ci_notify w a batch t = (t', res) ->
  s3_calls t' = s3_calls t
  /\ exists k j,
       sms_bodies t' = sms_bodies t ++ take k batch
       /\ slack_texts t' = slack_texts t ++ take j batch
       /\ ((0 < j)%nat -> k = length batch)
       /\ (res = Ok tt -> k = length batch /\ j = length batch).
Proof.
  unfold ci_notify. rewrite (bind_ok _ _ _ _ _ (when_print_run _ _ _)).
  set (t0 := announced (verbose a) "CI mode" t).
  assert (H0 : s3_calls t0 = s3_calls t /\ sms_bodies t0 = sms_bodies t
               /\ slack_texts t0 = slack_texts t).
  { subst t0. rewrite sms_bodies_omap. unfold s3_calls, slack_texts.
    rewrite !omap_announced by reflexivity. rewrite <- sms_bodies_omap. auto. }
  destruct H0 as (Hs3 & Hsms & Hslack).
  assert (Hnone : forall e, s3_calls t0 = s3_calls t
            /\ exists k j,
                 sms_bodies t0 = sms_bodies t ++ take k batch
                 /\ slack_texts t0 = slack_texts t ++ take j batch
                 /\ ((0 < j)%nat -> k = length batch)
                 /\ (@Raise unit e = Ok tt -> k = length batch /\ j = length batch)).
  { intros e. split; [exact Hs3 |]. exists 0%nat, 0%nat. cbn.
    rewrite !app_nil_r. repeat split; auto; try lia; discriminate. }
  unfold environ_getitem, getitem.
  destruct (environ w !! "TWILIO_ACCOUNT_SID") as [sid |];
    [| intros H; injection H as <- <-; apply Hnone].
  destruct (environ w !! "TWILIO_AUTH_TOKEN") as [token |];
    [| intros H; injection H as <- <-; apply Hnone].
  destruct (environ w !! "TWILIO_FROM_NUMBER") as [from_number |];
    [| intros H; injection H as <- <-; apply Hnone].
  destruct (environ w !! "TWILIO_TO_NUMBER") as [to_number |];
    [| intros H; injection H as <- <-; apply Hnone].
  run_M.
  destruct (send_sms_messages w sid token from_number to_number batch (verbose a) t0)
    as [t5 res5] eqn:H5.
  destruct (send_sms_messages_sent _ _ _ _ _ _ _ _ _ _ H5) as (k & Hk & Hsent & Hall).
  pose proof (emits_send_sms_messages _ _ _ _ _ _ _ _ _ _ H5) as He5.
  assert (Hslack5 : slack_texts t5 = slack_texts t0).
  { eapply omap_none; [| exact He5]. intros ev Hev. apply Hev. }
  assert (Hs35 : s3_calls t5 = s3_calls t0).
  { eapply omap_none; [| exact He5]. intros ev Hev. apply Hev. }
  destruct res5 as [[] | e5].
  - specialize (Hall eq_refl). subst k. rewrite firstn_all in Hsent.
    destruct (environ w !! "SLACK_WEBHOOK") as [hook |].
    + intros H6.
      destruct (send_slack_messages_sent _ _ _ _ _ _ _ H6) as (j & Hj & Hposted & Hallj).
      pose proof (emits_send_slack_messages _ _ _ _ _ _ _ H6) as He6.
      assert (Hsms6 : sms_bodies t' = sms_bodies t5).
      { rewrite !sms_bodies_omap. eapply omap_none; [| exact He6].
        intros ev Hev. apply Hev. }
      assert (Hs36 : s3_calls t' = s3_calls t5).
      { eapply omap_none; [| exact He6]. intros ev Hev. apply Hev. }
      split; [congruence |].
      exists (length batch), j. rewrite firstn_all.
      repeat split; try congruence; auto.
    + intros H. injection H as <- <-. split; [congruence |].
      exists (length batch), 0%nat. rewrite firstn_all. cbn. rewrite app_nil_r.
      repeat split; try congruence; auto; discriminate.
  - intros H. injection H as <- <-. split; [congruence |].
    exists k, 0%nat. cbn. rewrite app_nil_r.
    repeat split; try congruence; try lia; discriminate.
Qed.

Lemma ci_mode_ok_inv (w : world) (a : args) (errors : list string) (rc : Z)
    (t t' : trace) :
  ci_mode w a errors rc t = (t', Ok tt) ->
  exists t2 last,
    ci_store w a errors rc t = (t2, Ok last)
    /\ ((should_notify last errors = true
         /\ ci_notify w a (msg rc errors) t2 = (t', Ok tt))
        \/ (should_notify last errors = false /\ t' = t2)).
Proof.
  rewrite ci_mode_phases. unfold environ_getitem, getitem.
  destruct (environ w !! "AWS_ACCESS_KEY_ID"); [| discriminate].
  destruct (environ w !! "AWS_SECRET_ACCESS_KEY"); [| discriminate].
  destruct (environ w !! "S3DATA_BUCKET"); [| discriminate].
  run_M.
  destruct (ci_store w a errors rc t) as [t2 [last | e]]; [| discriminate].
  intros H. exists t2, last. split; [reflexivity |].
  destruct (should_notify last errors).
  - left. auto.
  - right. injection H as <-. auto.
Qed.

Lemma main_on_ci_inv (w : world) (servers : list server) (hosts : list string)
    (a : args) (t t' : trace) (rc : Z) :
  ci a = true ->
  main_on w servers hosts a t = (t', Ok rc) ->
  exists t1 errors,
    check_sites_on w servers hosts (verbose a) t = (t1, Ok errors)
    /\ rc = len errors
    /\ ci_mode w a errors rc t1 = (t', Ok tt).
Proof.
  intros Hci. unfold main_on. rewrite Hci, bind_run.
  destruct (check_sites_on w servers hosts (verbose a) t) as [t1 [errors | e]];
    [| discriminate].
  rewrite bind_run.
  destruct (ci_mode w a errors (len errors) t1) as [t2 [[] | e]] eqn:Hm; [| discriminate].
  intros H. injection H as <- <-. eauto.
Qed.

Lemma check_sites_on_frames (w : world) (servers : list server) (hosts : list string)
    (verbose' : bool) (t t' : trace) (res : result (list string)) :
  check_sites_on w servers hosts verbose' t = (t', res) ->
  sms_bodies t' = sms_bodies t /\ slack_texts t' = slack_texts t
  /\ s3_calls t' = s3_calls t.
Proof.
  intros H. pose proof (emits_check_sites_on _ _ _ _ _ _ _ H) as He.
  rewrite !sms_bodies_omap. unfold slack_texts, s3_calls.
  repeat split; (eapply omap_none; [| exact He]);
    intros ev Hev; apply (check_event_frames _ _ Hev).
Qed.

Lemma ci_store_frames (w : world) (a : args) (errors : list string) (rc : Z)
    (t t' : trace) (res : result (option run_data)) :
  ci_store w a errors rc t = (t', res) ->
  sms_bodies t' = sms_bodies t /\ slack_texts t' = slack_texts t.
Proof.
  intros H. pose proof (emits_ci_store _ _ _ _ _ _ _ H) as He.
  rewrite !sms_bodies_omap. unfold slack_texts.
  split; (eapply omap_none; [| exact He]);
    intros ev Hev; apply (store_event_frames _ Hev).
Qed.

(** X17. What a CI run sends (lines 160-212).  When [__main__] runs with [--ci]
    and ends normally, both channels received the same batch, in the same
    order: nothing when the decision of line 188, taken on the record the
    store answered and on the failures of this run, is not to notify; the
    messages of lines 190-196 otherwise. *)
Theorem notifications_follow_decision (w : world) (servers : list server)
    (hosts : list string) (a : args) (t t' : trace) (rc : Z) :
  ci a = true ->
  main_on w servers hosts a t = (t', Ok rc) ->
  exists t1 errors last,
    check_sites_on w servers hosts (verbose a) t = (t1, Ok errors)
    /\ s3_get w (t1 ++ (if delete a then [S3Delete "sitecheck-data"] else []))
         "sitecheck-data" = Ok last
    /\ let batch := if should_notify last errors then msg (len errors) errors else [] in
       sms_bodies t' = sms_bodies t ++ batch
       /\ slack_texts t' = slack_texts t ++ batch.
Proof.
  intros Hci Hmain.
  destruct (main_on_ci_inv _ _ _ _ _ _ _ Hci Hmain) as (t1 & errors & Hc & -> & Hm).
  destruct (ci_mode_ok_inv _ _ _ _ _ _ Hm) as (t2 & last & Hstore & Hnotify).
  destruct (ci_store_ok _ _ _ _ _ _ _ Hstore) as (now & _ & Hget).
  destruct (check_sites_on_frames _ _ _ _ _ _ _ Hc) as (Hsms1 & Hslack1 & _).
  destruct (ci_store_frames _ _ _ _ _ _ _ Hstore) as (Hsms2 & Hslack2).
  exists t1, errors, last. split; [exact Hc |]. split; [exact Hget |].
  destruct Hnotify as [[Hyes Hn] | [Hno ->]].
  - rewrite Hyes. cbn zeta.
    destruct (ci_notify_sent _ _ _ _ _ _ Hn) as (_ & k & j & Hk & Hj & _ & Hall).
    destruct (Hall eq_refl) as [-> ->]. rewrite firstn_all in Hk, Hj.
    split; congruence.
  - rewrite Hno. cbn zeta. rewrite !app_nil_r. split; congruence.
Qed.

(** X18. What a CI run stores (lines 167-185).  When [__main__] runs with [--ci]
    and ends normally, its calls to the store are: the delete when
    [--delete] is given, then one get, then one put, all on the key
    [sitecheck-data]; the record put has version 1, the exit status as
    [results] and the failures of this run as [errors].  The record is put
    whether or not a notification follows. *)
Theorem state_stored_once (w : world) (servers : list server)
    (hosts : list string) (a : args) (t t' : trace) (rc : Z) :
  ci a = true ->
  main_on w servers hosts a t = (t', Ok rc) ->
  exists t1 errors now,
    check_sites_on w servers hosts (verbose a) t = (t1, Ok errors)
    /\ rc = len errors
    /\ s3_calls t' = s3_calls t
                       ++ store_calls a {| lastRun := now; version := 1;
                                           results := rc; errors := errors |}.
Proof.
  intros Hci Hmain.
  destruct (main_on_ci_inv _ _ _ _ _ _ _ Hci Hmain) as (t1 & errors & Hc & -> & Hm).
  destruct (ci_mode_ok_inv _ _ _ _ _ _ Hm) as (t2 & last & Hstore & Hnotify).
  destruct (ci_store_ok _ _ _ _ _ _ _ Hstore) as (now & Hcalls & _).
  destruct (check_sites_on_frames _ _ _ _ _ _ _ Hc) as (_ & _ & Hs31).
  exists t1, errors, now. split; [exact Hc |]. split; [reflexivity |].
  destruct Hnotify as [[_ Hn] | [_ ->]].
  - destruct (ci_notify_sent _ _ _ _ _ _ Hn) as (Hs3 & _). congruence.
  - congruence.
Qed.

(** X19. The order inside the CI part (lines 160-212), whatever its outcome: a
    message is sent on either channel only after the record of this run was
    put in the store, and Slack is posted to only after every SMS of the
    batch was sent. *)
Theorem stored_before_notifying (w : world) (a : args) (errors : list string)
    (rc : Z) (t t' : trace) (res : result unit) :
  ci_mode w a errors rc t = (t', res) ->
  (sms_bodies t' <> sms_bodies t \/ slack_texts t' <> slack_texts t ->
   exists now, s3_calls t' = s3_calls t
                 ++ store_calls a {| lastRun := now; version := 1;
                                     results := rc; errors := errors |})
  /\ (slack_texts t' <> slack_texts t ->
      sms_bodies t' = sms_bodies t ++ msg rc errors).
Proof.
  rewrite ci_mode_phases. unfold environ_getitem, getitem.
  assert (Hquiet : forall t0 : trace,
            sms_bodies t0 = sms_bodies t -> slack_texts t0 = slack_texts t ->
            (sms_bodies t0 <> sms_bodies t \/ slack_texts t0 <> slack_texts t ->
             exists now, s3_calls t0 = s3_calls t
                           ++ store_calls a {| lastRun := now; version := 1;
                                               results := rc; errors := errors |})
            /\ (slack_texts t0 <> slack_texts t ->
                sms_bodies t0 = sms_bodies t ++ msg rc errors)).
  { intros t0 H1 H2. split; [intros [H | H] | intros H]; contradiction. }
  destruct (environ w !! "AWS_ACCESS_KEY_ID");
    [| intros H; injection H as <- _; apply Hquiet; reflexivity].
  destruct (environ w !! "AWS_SECRET_ACCESS_KEY");
    [| intros H; injection H as <- _; apply Hquiet; reflexivity].
  destruct (environ w !! "S3DATA_BUCKET");
    [| intros H; injection H as <- _; apply Hquiet; reflexivity].
  run_M.
  destruct (ci_store w a errors rc t) as [t2 res2] eqn:Hstore.
  destruct (ci_store_frames _ _ _ _ _ _ _ Hstore) as (Hsms2 & Hslack2).
  destruct res2 as [last | e];
    [| intros H; injection H as <- _; apply Hquiet; assumption].
  destruct (ci_store_ok _ _ _ _ _ _ _ Hstore) as (now & Hcalls & _).
  destruct (should_notify last errors);
    [| intros H; injection H as <- _; apply Hquiet; assumption].
  intros Hn.
  destruct (ci_notify_sent _ _ _ _ _ _ Hn) as (Hs3 & k & j & Hk & Hj & Hafter & _).
  split.
  - intros _. exists now. congruence.
  - intros Hposted.
    assert (Hj0 : (0 < j)%nat).
    { destruct j; [| lia]. exfalso. apply Hposted.
      rewrite Hj. cbn. rewrite app_nil_r. exact Hslack2. }
    rewrite (Hafter Hj0), firstn_all in Hk. congruence.
Qed.

(** X20. The Twilio settings are read from the environment only when a
    notification is due, after the record was stored (lines 185-204): when
    [TWILIO_ACCOUNT_SID] is not set and the decision is to notify, the CI
    part raises [KeyError] for it after the store half has run; nothing is
    sent on either channel. *)
Theorem missing_twilio_variable (w : world) (a : args) (errors : list string)
    (rc : Z) (t t2 : trace) (last : option run_data) :
  is_Some (environ w !! "AWS_ACCESS_KEY_ID") ->
  is_Some (environ w !! "AWS_SECRET_ACCESS_KEY") ->
  is_Some (environ w !! "S3DATA_BUCKET") ->
  ci_store w a errors rc t = (t2, Ok last) ->
  should_notify last errors = true ->
  environ w !! "TWILIO_ACCOUNT_SID" = None ->
  ci_mode w a errors rc t
  = (announced (verbose a) "CI mode" t2, Raise (KeyError "TWILIO_ACCOUNT_SID"))
  /\ sms_bodies (announced (verbose a) "CI mode" t2) = sms_bodies t
  /\ slack_texts (announced (verbose a) "CI mode" t2) = slack_texts t
  /\ exists now,
       s3_calls (announced (verbose a) "CI mode" t2)
       = s3_calls t ++ store_calls a {| lastRun := now; version := 1;
                                        results := rc; errors := errors |}.
Proof.
  intros [id Hid] [secret Hsecret] [bucket Hbucket] Hstore Hyes Hsid.
  destruct (ci_store_frames _ _ _ _ _ _ _ Hstore) as (Hsms2 & Hslack2).
  destruct (ci_store_ok _ _ _ _ _ _ _ Hstore) as (now & Hcalls & _).
  split; [| split; [| split]].
  - rewrite ci_mode_phases. unfold environ_getitem, getitem.
    rewrite Hid, Hsecret, Hbucket. run_M. rewrite Hstore, Hyes.
    unfold ci_notify. rewrite (bind_ok _ _ _ _ _ (when_print_run _ _ _)).
    unfold environ_getitem, getitem. rewrite Hsid. reflexivity.
  - rewrite !sms_bodies_omap, omap_announced by reflexivity.
    rewrite <- !sms_bodies_omap. exact Hsms2.
  - unfold slack_texts in *. rewrite omap_announced by reflexivity. exact Hslack2.
  - exists now. unfold s3_calls in *. rewrite omap_announced by reflexivity.
    exact Hcalls.
Qed.

(** X21. Without [--ci] (lines 156-160 and 214) [__main__] is [check_sites] and
    nothing else: whatever the outcome, the trace is that of [check_sites],
    the environment is not read, nothing is stored and nothing is sent;
    when [check_sites] returns, the exit status is the number of
    failures. *)
Theorem without_ci_only_checks (w : world) (servers : list server)
    (hosts : list string) (a : args) (t t' : trace) (res : result Z) :
  ci a = false ->
  main_on w servers hosts a t = (t', res) ->
  (exists res1, check_sites_on w servers hosts (verbose a) t = (t', res1)
                /\ res = match res1 with
                         | Ok errors => Ok (len errors)
                         | Raise e => Raise e
                         end)
  /\ sms_bodies t' = sms_bodies t
  /\ slack_texts t' = slack_texts t
  /\ s3_calls t' = s3_calls t.
Proof.
  intros Hci. unfold main_on. rewrite Hci, bind_run.
  destruct (check_sites_on w servers hosts (verbose a) t) as [t1 res1] eqn:Hc.
  pose proof (check_sites_on_frames _ _ _ _ _ _ _ Hc) as Hframes.
  destruct res1 as [errors | e]; intros H; injection H as <- <-;
    (split; [eexists; split; reflexivity | exact Hframes]).
Qed.

(** ** The further theorems at work on the sample worlds *)

Lemma status_mismatch_one_failure_witness :
  server_body Samples.w_flaky false Samples.site_a [] []
  = ([HttpHead "http://a.example/"],
     Ok (Next, ["Fail: http://a.example/ expected response code 301 received 500"])).
Proof.
  apply (status_mismatch_one_failure Samples.w_flaky false Samples.site_a [] []
           {| status_code := 500; headers := ∅; content := "" |}).
  - reflexivity.
  - discriminate.
Defined.

Lemma other_status_match_is_healthy_witness :
  server_body Samples.w_gone false Samples.site_gone [] []
  = ([HttpHead "http://gone.example/"], Ok (Next, [])).
Proof.
  apply (other_status_match_is_healthy Samples.w_gone false Samples.site_gone [] []
           {| status_code := 404; headers := ∅; content := "" |});
    solve [reflexivity | discriminate].
Defined.

Lemma get_failure_is_fatal_witness :
  check_sites_on Samples.w_get_down [Samples.site_b; Samples.site_a] ["a.example"] false []
  = ([HttpHead "https://b.example/"; HttpGet "https://b.example/"],
     Raise (RequestException "connection reset")).
Proof.
  apply (get_failure_is_fatal Samples.w_get_down Samples.plain_args
           [] [Samples.site_a] Samples.site_b ["a.example"] [] [] []
           {| status_code := 200; headers := ∅; content := "" |}
           (RequestException "connection reset")).
  - apply passes_nil.
  - reflexivity.
  - reflexivity.
  - reflexivity.
  - reflexivity.
Defined.

Lemma missing_redirect_key_witness :
  server_body Samples.w_moved false Samples.site_no_redirect [] []
  = ([HttpHead "http://a.example/"], Raise (KeyError "redirect")).
Proof.
  apply (missing_redirect_key Samples.w_moved false Samples.site_no_redirect [] []
           {| status_code := 301; headers := {[ "location" := "https://elsewhere.example/" ]};
              content := "" |}
           "https://elsewhere.example/").
  - left. reflexivity.
  - reflexivity.
  - reflexivity.
  - vm_compute. reflexivity.
  - reflexivity.
Defined.

Lemma missing_contents_key_witness :
  server_body Samples.w_other_page false Samples.site_no_contents [] []
  = ([HttpHead "https://b.example/"; HttpGet "https://b.example/"],
     Raise (KeyError "contents")).
Proof.
  apply (missing_contents_key Samples.w_other_page false Samples.site_no_contents [] []
           {| status_code := 200; headers := ∅; content := "" |}
           {| status_code := 200; headers := ∅; content := "<h1>Hello</h1>" |});
    reflexivity.
Defined.

Lemma requests_of_one_entry_witness :
  http_heads [HttpHead "https://b.example/"; HttpGet "https://b.example/"]
  = http_heads [] ++ ["https://b.example/"]
  /\ (http_gets [HttpHead "https://b.example/"; HttpGet "https://b.example/"] = http_gets []
      \/ (http_gets [HttpHead "https://b.example/"; HttpGet "https://b.example/"]
          = http_gets [] ++ ["https://b.example/"]
          /\ code Samples.site_b = 200
          /\ exists r, requests_head Samples.w_other_page
                         (announced false ("checking " +:+ url Samples.site_b) [])
                         (url Samples.site_b) = Ok r
                       /\ status_code r = 200)).
Proof.
  apply (requests_of_one_entry Samples.w_other_page false Samples.site_b [] []
           [HttpHead "https://b.example/"; HttpGet "https://b.example/"]
           (Ok (Next, ["Fail: https://b.example/ expected contents Welcome"]))).
  reflexivity.
Defined.

Lemma remaining_is_expiry_minus_now_witness :
  exists cert notAfter expires,
    ssl_connect Samples.w_certs [] "a.example" 443 = Ok cert
    /\ cert !! "notAfter" = Some notAfter
    /\ strptime Samples.w_certs notAfter "%b %d %H:%M:%S %Y %Z" = Ok expires
    /\ [SslConnect "a.example" 443; UtcNow] = [] ++ [SslConnect "a.example" 443; UtcNow]
    /\ total_us (timedelta_of_us 129600000000)
       = expires - utcnow Samples.w_certs ([] ++ [SslConnect "a.example" 443])
    /\ normalised (timedelta_of_us 129600000000).
Proof.
  apply (remaining_is_expiry_minus_now Samples.w_certs "a.example" []
           [SslConnect "a.example" 443; UtcNow] (timedelta_of_us 129600000000)).
  vm_compute. reflexivity.
Defined.

Lemma requests_in_table_order_witness :
  exists k j,
    (k <= length [Samples.site_a])%nat
    /\ (j <= length ["a.example"; "c.example"; "b.example"])%nat
    /\ http_heads [HttpHead "http://a.example/"; SslConnect "a.example" 443; UtcNow;
                   SslConnect "c.example" 443]
       = http_heads [] ++ (url <$> take k [Samples.site_a])
    /\ tls_connects [HttpHead "http://a.example/"; SslConnect "a.example" 443; UtcNow;
                     SslConnect "c.example" 443]
       = tls_connects []
           ++ ((fun h => (h, 443)) <$> take j ["a.example"; "c.example"; "b.example"])
    /\ (forall errors : list string, Raise (OSError "timed out") = Ok errors ->
        j = length ["a.example"; "c.example"; "b.example"]).
Proof.
  apply (requests_in_table_order Samples.w_certs [Samples.site_a]
           ["a.example"; "c.example"; "b.example"] false []).
  vm_compute. reflexivity.
Defined.

Lemma check_sites_only_probes_witness :
  sms_bodies [HttpHead "http://a.example/"; SslConnect "a.example" 443; UtcNow;
              SslConnect "c.example" 443] = sms_bodies []
  /\ slack_texts [HttpHead "http://a.example/"; SslConnect "a.example" 443; UtcNow;
                  SslConnect "c.example" 443] = slack_texts []
  /\ s3_calls [HttpHead "http://a.example/"; SslConnect "a.example" 443; UtcNow;
               SslConnect "c.example" 443] = s3_calls [].
Proof.
  refine (proj2 (check_sites_only_probes Samples.w_certs [Samples.site_a]
                   ["a.example"; "c.example"; "b.example"] false [] _
                   (Raise (OSError "timed out")) _)).
  vm_compute. reflexivity.
Defined.

Lemma tls_hosts_inspected_after_break_witness :
  snd (check_sites_on Samples.w_down_certs [Samples.site_a; Samples.site_b]
         ["a.example"; "b.example"] false [])
  = Ok ["Fail: http://a.example/ exception connection refused";
        "Fail: SSL cert for a.example expiring in 1 days";
        "Fail: SSL cert for b.example already expired!"].
Proof.
  refine (proj1 (tls_hosts_inspected_after_break Samples.w_down_certs false
                   [] [Samples.site_b] Samples.site_a ["a.example"; "b.example"] [] []
                   [HttpHead "http://a.example/"; SslConnect "a.example" 443; UtcNow;
                    SslConnect "b.example" 443; UtcNow]
                   [] _ "connection refused" _ _ _)).
  - apply passes_nil.
  - reflexivity.
  - vm_compute. reflexivity.
Defined.

Lemma exit_status_bounded_witness :
  0 <= 4 <= len [Samples.site_a; Samples.site_b] + len ["a.example"; "b.example"].
Proof.
  apply (exit_status_bounded Samples.w_certs [Samples.site_a; Samples.site_b]
           ["a.example"; "b.example"] Samples.plain_args []
           [HttpHead "http://a.example/"; HttpHead "https://b.example/";
            SslConnect "a.example" 443; UtcNow; SslConnect "b.example" 443; UtcNow]).
  vm_compute. reflexivity.
Defined.

Lemma sms_stops_at_first_failure_witness :
  send_sms_messages Samples.w_sms_quota "AC0" "token" "+10000000000" "+10000000001"
    (["one"] ++ "two" :: ["three"]) false []
  = ([TwilioCreate "one" "+10000000000" "+10000000001"]
       ++ [TwilioCreate "two" "+10000000000" "+10000000001"],
     Raise (TwilioException "quota exceeded"))
  /\ sms_bodies ([TwilioCreate "one" "+10000000000" "+10000000001"]
                   ++ [TwilioCreate "two" "+10000000000" "+10000000001"])
     = sms_bodies [] ++ ["one"] ++ ["two"].
Proof.
  apply (sms_stops_at_first_failure Samples.w_sms_quota "AC0" "token" "+10000000000"
           "+10000000001" ["one"] ["three"] "two" false []
           [TwilioCreate "one" "+10000000000" "+10000000001"]
           (TwilioException "quota exceeded")).
  - reflexivity.
  - reflexivity.
Defined.

Lemma slack_posts_all_whatever_the_status_witness :
  exists t', send_slack_messages Samples.w_slack_500 "https://hooks.example/"
               ["one"; "two"] false [] = (t', Ok tt)
             /\ slack_texts t' = slack_texts [] ++ ["one"; "two"].
Proof.
  apply (slack_posts_all_whatever_the_status Samples.w_slack_500 "https://hooks.example/"
           ["one"; "two"] false []).
  intros t0 m. eexists. reflexivity.
Defined.

Lemma notifications_follow_decision_witness :
  exists t1 errors last,
    check_sites_on Samples.w_unresolved servers ssl_hosts (verbose Samples.ci_args) []
    = (t1, Ok errors)
    /\ s3_get Samples.w_unresolved
         (t1 ++ (if delete Samples.ci_args then [S3Delete "sitecheck-data"] else []))
         "sitecheck-data" = Ok last
    /\ sms_bodies (fst (main Samples.w_unresolved Samples.ci_args []))
       = sms_bodies []
           ++ (if should_notify last errors then msg (len errors) errors else [])
    /\ slack_texts (fst (main Samples.w_unresolved Samples.ci_args []))
       = slack_texts []
           ++ (if should_notify last errors then msg (len errors) errors else []).
Proof.
  apply (notifications_follow_decision Samples.w_unresolved servers ssl_hosts
           Samples.ci_args [] _ 1).
  - reflexivity.
  - vm_compute. reflexivity.
Defined.

Lemma state_stored_once_witness :
  exists t1 errors now,
    check_sites_on Samples.w_unresolved servers ssl_hosts (verbose Samples.delete_args) []
    = (t1, Ok errors)
    /\ 1 = len errors
    /\ s3_calls (fst (main Samples.w_unresolved Samples.delete_args []))
       = s3_calls []
           ++ store_calls Samples.delete_args
                {| lastRun := now; version := 1; results := 1; errors := errors |}.
Proof.
  apply (state_stored_once Samples.w_unresolved servers ssl_hosts
           Samples.delete_args [] _ 1).
  - reflexivity.
  - vm_compute. reflexivity.
Defined.

Lemma stored_before_notifying_witness :
  (sms_bodies (fst (ci_mode Samples.w_sms_quota Samples.ci_args ["down"] 1 []))
     <> sms_bodies []
   \/ slack_texts (fst (ci_mode Samples.w_sms_quota Samples.ci_args ["down"] 1 []))
        <> slack_texts [] ->
   exists now,
     s3_calls (fst (ci_mode Samples.w_sms_quota Samples.ci_args ["down"] 1 []))
     = s3_calls []
         ++ store_calls Samples.ci_args
              {| lastRun := now; version := 1; results := 1; errors := ["down"] |})
  /\ (slack_texts (fst (ci_mode Samples.w_sms_quota Samples.ci_args ["down"] 1 []))
        <> slack_texts [] ->
      sms_bodies (fst (ci_mode Samples.w_sms_quota Samples.ci_args ["down"] 1 []))
      = sms_bodies [] ++ msg 1 ["down"]).
Proof.
  apply (stored_before_notifying Samples.w_sms_quota Samples.ci_args ["down"] 1 [] _
           (Raise (TwilioException "quota exceeded"))).
  vm_compute. reflexivity.
Defined.

Lemma missing_twilio_variable_witness :
  ci_mode Samples.w_no_twilio Samples.ci_args ["down"] 1 []
  = ([S3Get "sitecheck-data"; TimeTime;
      S3Put "sitecheck-data"
        {| lastRun := 0; version := 1; results := 1; errors := ["down"] |}],
     Raise (KeyError "TWILIO_ACCOUNT_SID")).
Proof.
  refine (proj1 (missing_twilio_variable Samples.w_no_twilio Samples.ci_args ["down"] 1 []
                   [S3Get "sitecheck-data"; TimeTime;
                    S3Put "sitecheck-data"
                      {| lastRun := 0; version := 1; results := 1; errors := ["down"] |}]
                   None _ _ _ _ _ _)).
  - eexists. vm_compute. reflexivity.
  - eexists. vm_compute. reflexivity.
  - eexists. vm_compute. reflexivity.
  - vm_compute. reflexivity.
  - reflexivity.
  - vm_compute. reflexivity.
Defined.

Lemma without_ci_only_checks_witness :
  sms_bodies (fst (main (Samples.w_healthy None) Samples.plain_args [])) = sms_bodies []
  /\ slack_texts (fst (main (Samples.w_healthy None) Samples.plain_args []))
     = slack_texts []
  /\ s3_calls (fst (main (Samples.w_healthy None) Samples.plain_args [])) = s3_calls [].
Proof.
  refine (proj2 (without_ci_only_checks (Samples.w_healthy None) servers ssl_hosts
                   Samples.plain_args [] _ (Ok 0) _ _)).
  - reflexivity.
  - vm_compute. reflexivity.
Defined.

(** ** When the site loop goes through the whole table *)

Lemma check_response_next (w : world) (s : server) (r : response)
    (errors errors' : list string) (t t' : trace) (fl : flow) :
  check_response w s r errors t = (t', Ok (fl, errors')) -> fl = Next.
Proof.
  unfold check_response, headers_getitem, getitem, server_getitem. run_M.
  intros H. repeat case_match; simplify_eq; reflexivity.
Qed.

(** The body leaves the loop only in the [except] branch, and then it has
    appended a failure. *)
Lemma server_body_break (w : world) (verbose' : bool) (s : server)
    (errors errors' : list string) (t t' : trace) :
  server_body w verbose' s errors t = (t', Ok (Break, errors')) ->
  (exists e, requests_head w (announced verbose' ("checking " +:+ url s) t) (url s)
             = Raise (RequestException e))
  /\ length errors' = S (length errors).
Proof.
  rewrite server_body_run. cbn zeta.
  destruct (requests_head w _ (url s)) as [r | e].
  - intros H. pose proof (check_response_next _ _ _ _ _ _ _ _ H). discriminate.
  - destruct e; try discriminate.
    intros H. injection H as _ <-. split; [eauto |].
    rewrite length_app. cbn. lia.
Qed.

Lemma for_servers_all_heads (w : world) (verbose' : bool) (servers : list server)
    (errors errors' : list string) (t t' : trace) :
  for_servers w verbose' servers errors t = (t', Ok errors') ->
  ((forall t0 u e, requests_head w t0 u <> Raise (RequestException e))
   \/ length errors' = length errors) ->
  http_heads t' = http_heads t ++ (url <$> servers).
Proof.
  revert errors t. induction servers as [| s rest IH]; intros errors t H Hwhy.
  - injection H as <- _. cbn. rewrite app_nil_r. reflexivity.
  - cbn [for_servers] in H. rewrite bind_run in H.
    destruct (server_body w verbose' s errors t) as [t1 [[fl errors1] | e]] eqn:Hb;
      [| discriminate].
    destruct (server_body_requests _ _ _ _ _ _ _ Hb) as [Hh _].
    destruct (server_body_appends _ _ _ _ _ _ _ _ Hb) as (l & Hl & _ & _).
    destruct fl.
    + destruct (for_servers_order _ _ _ _ _ _ _ H) as (per_site & Hps & _ & _).
      rewrite (IH _ _ H).
      * rewrite Hh, <- app_assoc. reflexivity.
      * destruct Hwhy as [Hnet | Hlen]; [left; exact Hnet | right].
        subst errors1 errors'. rewrite !length_app in *. lia.
    + exfalso. destruct (server_body_break _ _ _ _ _ _ _ Hb) as [[e He] Hlen1].
      destruct Hwhy as [Hnet | Hlen]; [exact (Hnet _ _ _ He) |].
      injection H as _ <-. lia.
Qed.

(** X13. Only a network failure of a HEAD request cuts the site loop short
    (lines 74-100): in a world where no HEAD request raises a
    [RequestException], whenever the loop returns it has probed every entry
    of the table, in table order, whatever failures it met on the way. *)
Theorem only_network_failure_cuts_the_loop (w : world) (verbose' : bool)
    (servers : list server) (errors errors' : list string) (t t' : trace) :
  (forall t0 u e, requests_head w t0 u <> Raise (RequestException e)) ->
  for_servers w verbose' servers errors t = (t', Ok errors') ->
  http_heads t' = http_heads t ++ (url <$> servers).
Proof.
  intros Hnet H. eapply for_servers_all_heads; [exact H | left; exact Hnet].
Qed.

(** X14. A run without failures has looked at everything (lines 72-121): when
    [check_sites] returns the empty list, every entry of [servers] was
    probed and every host of [ssl_hosts] was connected to on port 443, in
    table order; so exit status 0 never comes from a skipped entry. *)
Theorem clean_run_probed_everything (w : world) (servers : list server)
    (hosts : list string) (verbose' : bool) (t t' : trace) :
  check_sites_on w servers hosts verbose' t = (t', Ok []) ->
  http_heads t' = http_heads t ++ (url <$> servers)
  /\ tls_connects t' = tls_connects t ++ ((fun h => (h, 443)) <$> hosts).
Proof.
  rewrite check_sites_on_run.
  destruct (for_servers w verbose' servers [] t) as [t0 [errors0 | e]] eqn:Hs;
    [| discriminate].
  destruct (for_ssl_hosts w verbose' hosts errors0 t0) as [t1 [errors | e]] eqn:Hh;
    [| discriminate].
  intros H. injection H as <- ->.
  destruct (for_ssl_hosts_order _ _ _ _ _ _ _ Hh) as (per_host & Hempty & _).
  assert (errors0 = []) as -> by (destruct errors0; [reflexivity | discriminate]).
  assert (Hheads0 : http_heads t0 = http_heads t ++ (url <$> servers)).
  { eapply for_servers_all_heads; [exact Hs | right; reflexivity]. }
  assert (Htls0 : tls_connects t0 = tls_connects t).
  { eapply omap_none; [| eapply emits_for_servers_site; exact Hs].
    intros ev Hev. apply (site_event_frames _ _ Hev). }
  destruct (for_ssl_hosts_connects _ _ _ _ _ _ _ Hh) as (j & _ & Hconn & Hall).
  rewrite (Hall _ eq_refl), firstn_all in Hconn.
  assert (Hheads1 : http_heads t1 = http_heads t0).
  { eapply omap_none; [| eapply emits_for_ssl_hosts_tls; exact Hh].
    intros ev Hev. apply (tls_event_frames _ _ Hev). }
  unfold http_heads, tls_connects in *.
  rewrite !summary_frames by reflexivity.
  split; congruence.
Qed.

Lemma only_network_failure_cuts_the_loop_witness :
  http_heads [HttpHead "http://a.example/"; HttpHead "https://b.example/";
              HttpHead "http://c.example/"]
  = http_heads [] ++ (url <$> [Samples.site_a; Samples.site_b; Samples.site_c]).
Proof.
  apply (only_network_failure_cuts_the_loop Samples.w_certs false
           [Samples.site_a; Samples.site_b; Samples.site_c] []
           ["Fail: http://a.example/ expected response code 301 received 500";
            "Fail: https://b.example/ expected response code 200 received 500";
            "Fail: http://c.example/ expected response code 302 received 500"]
           []).
  - intros t0 u e. discriminate.
  - vm_compute. reflexivity.
Defined.

Lemma clean_run_probed_everything_witness :
  http_heads (fst (check_sites (Samples.w_healthy None) false []))
  = http_heads [] ++ (url <$> servers)
  /\ tls_connects (fst (check_sites (Samples.w_healthy None) false []))
     = tls_connects [] ++ ((fun h => (h, 443)) <$> ssl_hosts).
Proof.
  apply (clean_run_probed_everything (Samples.w_healthy None) servers ssl_hosts false []).
  vm_compute. reflexivity.
Defined.

(** ** The whole table and the [break] *)

(** In the world [Samples.w_down] the entries [site_b] and [site_c] meet a
    wrong status whenever they are probed. *)
Lemma w_down_site_fails (s : server) (l : list string) :
  url s <> "http://a.example/" -> code s <> 500 ->
  site_emits Samples.w_down false s l -> length l = 1%nat.
Proof.
  intros Hurl Hcode (_ & t & t' & fl & H).
  rewrite server_body_run in H. cbn zeta in H.
  assert (Hhead : requests_head Samples.w_down
                    (announced false ("checking " +:+ url s) t) (url s)
                  = Fixtures.answer 500 None "").
  { cbn. destruct (String.eqb_spec (url s) "http://a.example/"); [contradiction |].
    reflexivity. }
  rewrite Hhead in H. unfold Fixtures.answer, check_response in H.
  cbn [status_code] in H.
  destruct (Z.eqb_spec 500 (code s)) as [Heq | _]; [congruence |].
  cbn [negb] in H. injection H as _ _ <-. reflexivity.
Qed.

(** C8. What the code does to the order invariant.  The first of three
    entries cannot be reached, the other two answer with a wrong status.
    [check_sites] returns one failure, that of the first entry, and the
    exit status is 1, the length of the list; but the list does not account
    for the whole table: whenever they are probed the second and the third
    entry each contribute a failure, and the [break] has left them out. *)
Theorem C8_break_leaves_entries_out :
  check_sites_on Samples.w_down [Samples.site_a; Samples.site_b; Samples.site_c] [] false []
  = ([HttpHead "http://a.example/"],
     Ok ["Fail: http://a.example/ exception connection refused"])
  /\ main_on Samples.w_down [Samples.site_a; Samples.site_b; Samples.site_c] []
       Samples.plain_args []
     = ([HttpHead "http://a.example/"],
        Ok (len ["Fail: http://a.example/ exception connection refused"]))
  /\ ~ all_failures_in_table_order Samples.w_down false
         [Samples.site_a; Samples.site_b; Samples.site_c] []
         ["Fail: http://a.example/ exception connection refused"].
Proof.
  split; [reflexivity |]. split; [reflexivity |].
  intros (per_site & per_host & Herrors & Hsites & Hhosts).
  inversion Hhosts; subst.
  inversion Hsites as [| sa la ra rla _ Hrest]; subst.
  inversion Hrest as [| sb lb rb rlb Hb Hrest']; subst.
  inversion Hrest' as [| sc lc rc rlc Hc Hnil]; subst.
  inversion Hnil; subst.
  apply w_down_site_fails in Hb; [| discriminate | discriminate].
  apply w_down_site_fails in Hc; [| discriminate | discriminate].
  apply (f_equal (@length string)) in Herrors.
  cbn in Herrors. rewrite !length_app in Herrors. cbn in Herrors. lia.
Qed.

(** ** A record in the store that cannot be printed *)

(** X22. The line about the last run (lines 172-177) is printed before the
    new record is put: when the store answers a record whose [lastRun]
    [datetime.fromtimestamp] cannot turn into a date, the CI part ends with
    that exception right after the get; no record is put and nothing is
    sent on either channel. *)
Theorem stale_record_is_fatal (w : world) (a : args) (errors : list string)
    (rc : Z) (t : trace) (l : run_data) (e : exn) :
  is_Some (environ w !! "AWS_ACCESS_KEY_ID") ->
  is_Some (environ w !! "AWS_SECRET_ACCESS_KEY") ->
  is_Some (environ w !! "S3DATA_BUCKET") ->
  (delete a = true -> s3_delete w t "sitecheck-data" = Ok tt) ->
  let t1 := t ++ (if delete a then [S3Delete "sitecheck-data"] else []) in
  s3_get w t1 "sitecheck-data" = Ok (Some l) ->
  strftime_local w (lastRun l) "%Y-%m-%d %H:%M:%S" = Raise e ->
  ci_mode w a errors rc t = (t1 ++ [S3Get "sitecheck-data"], Raise e)
  /\ s3_calls (t1 ++ [S3Get "sitecheck-data"])
     = s3_calls t ++ (if delete a then [S3Delete "sitecheck-data"] else [])
         ++ [S3Get "sitecheck-data"]
  /\ sms_bodies (t1 ++ [S3Get "sitecheck-data"]) = sms_bodies t
  /\ slack_texts (t1 ++ [S3Get "sitecheck-data"]) = slack_texts t.
Proof.
  intros [id Hid] [secret Hsecret] [bucket Hbucket] Hdel t1 Hget Hfmt.
  split.
  - unfold ci_mode, environ_getitem, getitem, when. rewrite Hid, Hsecret, Hbucket.
    run_M. subst t1. destruct (delete a).
    + rewrite (Hdel eq_refl), Hget, Hfmt. reflexivity.
    + rewrite app_nil_r in Hget. rewrite Hget, Hfmt, app_nil_r. reflexivity.
  - subst t1. rewrite !sms_bodies_omap. unfold s3_calls, slack_texts.
    rewrite !omap_app. destruct (delete a); cbn; rewrite ?app_nil_r, <- ?app_assoc; auto.
Qed.

Lemma stale_record_is_fatal_witness :
  ci_mode Samples.w_stale Samples.ci_args [] 0 []
  = ([S3Get "sitecheck-data"], Raise (ValueError "year is out of range")).
Proof.
  refine (proj1 (stale_record_is_fatal Samples.w_stale Samples.ci_args [] 0 []
                   {| lastRun := 1700000000000; version := 1; results := 0; errors := [] |}
                   (ValueError "year is out of range") _ _ _ _ _ _)).
  - eexists. vm_compute. reflexivity.
  - eexists. vm_compute. reflexivity.
  - eexists. vm_compute. reflexivity.
  - discriminate.
  - reflexivity.
  - reflexivity.
Defined.

(** The whole run on the stale record: every check passes, and the run dies
    after the get; the record is not replaced. *)
Example stale_record_run :
  snd (main Samples.w_stale Samples.ci_args [])
  = Raise (ValueError "year is out of range")
  /\ s3_calls (fst (main Samples.w_stale Samples.ci_args [])) = [S3Get "sitecheck-data"]
  /\ sms_bodies (fst (main Samples.w_stale Samples.ci_args [])) = [].
Proof. repeat split; vm_compute; reflexivity. Qed.
